(** * mem_edit: the Linux process-memory backends

    A shallow embedding of [mem_edit/__init__.py], [mem_edit/linux.py] and
    [mem_edit/linux_vm.py].

    Python values are embedded as Rocq values, exceptions as the [Raise]
    branch of [result], and every call that reaches the operating system
    or a file object goes through the interface [OS], a state-passing
    signature over a world type.  The methods are translated statement by
    statement over that interface; [RefOS] is one executable world (a small
    model of procfs, signals, ptrace and a target's memory) on which the
    methods can be run.  Calls to the logger have no effect on any result
    and are left out. *)

From Stdlib Require Import ZArith String Ascii List Bool Lia.
From Stdlib Require Import DecimalString DecimalPos DecimalZ Strings.Byte.
From stdpp Require Import base option gmap.

Import ListNotations.
Open Scope string_scope.
Open Scope Z_scope.

(* ===================================================================== *)
(** * Python values, exceptions and builtins                              *)
(* ===================================================================== *)

Module Py.

(** errno values used by the code paths below (Linux numbering). *)
Definition EPERM  : Z := 1.
Definition ENOENT : Z := 2.
Definition ESRCH  : Z := 3.
Definition EIO    : Z := 5.
Definition ECHILD : Z := 10.
Definition EACCES : Z := 13.
Definition EFAULT : Z := 14.

(** Exceptions.  [OSError errno] stands for [OSError] and its subclasses:
    Python picks the subclass from the errno ([ENOENT] is
    [FileNotFoundError], [ESRCH] is [ProcessLookupError], [ECHILD] is
    [ChildProcessError], [EPERM] and [EACCES] are [PermissionError]). *)
Inductive exn : Type :=
| OSError (errno : Z)
| TypeError
| ValueError
| IndexError
| OverflowError
| UnicodeDecodeError
| ArgumentError
| ReError
| MemEditError (msg : string)
(** Not an exception: the call never returns (a blocking wait with nothing
    to wait for).  No handler catches it and no [finally] clause runs. *)
| Hangs.

Definition is_FileNotFoundError (e : exn) : bool :=
  match e with OSError n => n =? ENOENT | _ => false end.

Definition is_ChildProcessError (e : exn) : bool :=
  match e with OSError n => n =? ECHILD | _ => false end.

Definition is_ProcessLookupError (e : exn) : bool :=
  match e with OSError n => n =? ESRCH | _ => false end.

Definition is_PermissionError (e : exn) : bool :=
  match e with OSError n => (n =? EPERM) || (n =? EACCES) | _ => false end.

(** The outcome of a Python expression or statement. *)
Inductive result (A : Type) : Type :=
| Ok (a : A)
| Raise (e : exn).
Arguments Ok {A} a.
Arguments Raise {A} e.

Definition is_Ok {A} (r : result A) : bool :=
  match r with Ok _ => true | Raise _ => false end.

(** Pure code that may raise. *)
Definition rbind {A B} (r : result A) (k : A -> result B) : result B :=
  match r with Ok a => k a | Raise e => Raise e end.

(** Code that may raise and that changes the world [W]. *)
Definition M (W A : Type) : Type := W -> result A * W.

Definition ret {W A} (a : A) : M W A := fun w => (Ok a, w).
Definition raise {W A} (e : exn) : M W A := fun w => (Raise e, w).
Definition lift {W A} (r : result A) : M W A := fun w => (r, w).

Definition bind {W A B} (m : M W A) (k : A -> M W B) : M W B :=
  fun w => match m w with
           | (Ok a, w') => k a w'
           | (Raise e, w') => (Raise e, w')
           end.

(** [try: m except E: h], with [E] given as a test on the exception. *)
Definition try_except {W A} (m : M W A) (catches : exn -> bool) (h : M W A)
  : M W A :=
  fun w => match m w with
           | (Ok a, w') => (Ok a, w')
           | (Raise e, w') => if catches e then h w' else (Raise e, w')
           end.

(** [try: m finally: f]: [f] runs on both exits; when [f] raises, its
    exception replaces the outcome of [m]. *)
Definition try_finally {W A} (m : M W A) (f : M W unit) : M W A :=
  fun w => match m w with
           | (Raise Hangs, w') => (Raise Hangs, w')
           | (r, w') => match f w' with
                        | (Ok _, w'') => (r, w'')
                        | (Raise e, w'') => (Raise e, w'')
                        end
           end.

Declare Scope py_scope.
Delimit Scope py_scope with py.
Notation "x <- m ;; k" := (bind m (fun x => k))
  (at level 100, m at next level, right associativity) : py_scope.
Notation "m ;;; k" := (bind m (fun _ => k))
  (at level 100, right associativity) : py_scope.

(** ** Strings *)

Definition chars (s : string) : list ascii := list_ascii_of_string s.
Definition str (l : list ascii) : string := string_of_list_ascii l.

(** The ASCII characters for which [str.isspace()] holds; these are the
    separators of [str.split()] and the characters [int()] strips. *)
Definition is_py_space (c : ascii) : bool :=
  let n := nat_of_ascii c in
  ((9 <=? n) && (n <=? 13) || (28 <=? n) && (n <=? 32))%nat.

(** [s.split()]: the maximal runs of non-whitespace characters. *)
Fixpoint split_ws_go (cur : list ascii) (l : list ascii) : list string :=
  match l with
  | [] => match cur with [] => [] | _ => [str (rev cur)] end
  | c :: l' =>
      if is_py_space c
      then match cur with
           | [] => split_ws_go [] l'
           | _ => str (rev cur) :: split_ws_go [] l'
           end
      else split_ws_go (c :: cur) l'
  end.

Definition split_ws (s : string) : list string := split_ws_go [] (chars s).

(** [s.split(sep)] for a one-character separator: empty pieces are kept,
    and the result always has one more piece than [s] has separators. *)
Fixpoint split_on_go (sep : ascii) (cur : list ascii) (l : list ascii)
  : list string :=
  match l with
  | [] => [str (rev cur)]
  | c :: l' =>
      if Ascii.eqb c sep
      then str (rev cur) :: split_on_go sep [] l'
      else split_on_go sep (c :: cur) l'
  end.

Definition split_on (sep : ascii) (s : string) : list string :=
  split_on_go sep [] (chars s).

(** [sep.join(l)]. *)
Fixpoint join (sep : string) (l : list string) : string :=
  match l with
  | [] => ""
  | [x] => x
  | x :: l' => x ++ sep ++ join sep l'
  end.

(** [needle in hay] on strings. *)
Fixpoint is_prefix (p s : list ascii) : bool :=
  match p, s with
  | [], _ => true
  | _ :: _, [] => false
  | a :: p', b :: s' => Ascii.eqb a b && is_prefix p' s'
  end.

Fixpoint contains_go (p s : list ascii) : bool :=
  is_prefix p s ||
  match s with
  | [] => false
  | _ :: s' => contains_go p s'
  end.

Definition str_in (needle hay : string) : bool :=
  contains_go (chars needle) (chars hay).

(** [os.path.basename(p)] on POSIX: what follows the last slash. *)
Definition basename (p : string) : string :=
  List.last (split_on "/"%char p) "".

(** [str(n)] and ['{}'.format(x)] for an int or [None]. *)
Definition str_of_Z (n : Z) : string := NilZero.string_of_int (Z.to_int n).

Definition format_opt_int (x : option Z) : string :=
  match x with Some n => str_of_Z n | None => "None" end.

(** ** [int(s)] and [int(s, 16)] on ASCII text *)

Definition digit_val (base : Z) (c : ascii) : option Z :=
  let n := Z.of_nat (nat_of_ascii c) in
  let v := if (48 <=? n) && (n <=? 57) then Some (n - 48)
           else if (97 <=? n) && (n <=? 122) then Some (n - 87)
           else if (65 <=? n) && (n <=? 90) then Some (n - 55)
           else None in
  match v with
  | Some d => if d <? base then Some d else None
  | None => None
  end.

(** Digits with single underscores between them; [prev] tells whether the
    previous character was a digit. *)
Fixpoint digits_go (base : Z) (acc : Z) (prev : bool) (l : list ascii)
  : option Z :=
  match l with
  | [] => if prev then Some acc else None
  | c :: l' =>
      if Ascii.eqb c "_"%char
      then if prev then digits_go base acc false l' else None
      else match digit_val base c with
           | Some d => digits_go base (acc * base + d) true l'
           | None => None
           end
  end.

Definition strip_ws (l : list ascii) : list ascii :=
  let drop := fix drop (l : list ascii) : list ascii :=
    match l with
    | c :: l' => if is_py_space c then drop l' else l
    | [] => []
    end in
  rev (drop (rev (drop l))).

(** The literal after the sign: for base 16 an optional [0x] or [0X]
    prefix, after which one underscore may come before the first digit. *)
Definition unsigned_literal (base : Z) (l : list ascii) : option Z :=
  match l with
  | z :: x :: l' =>
      if (base =? 16) && Ascii.eqb z "0"%char &&
         (Ascii.eqb x "x"%char || Ascii.eqb x "X"%char)
      then match l' with
           | u :: l'' => if Ascii.eqb u "_"%char
                         then digits_go base 0 false l''
                         else digits_go base 0 false l'
           | [] => None
           end
      else digits_go base 0 false l
  | _ => digits_go base 0 false l
  end.

Definition py_int (base : Z) (s : string) : result Z :=
  let body := strip_ws (chars s) in
  let parsed :=
    match body with
    | c :: l' =>
        if Ascii.eqb c "+"%char then unsigned_literal base l'
        else if Ascii.eqb c "-"%char
             then option_map Z.opp (unsigned_literal base l')
             else unsigned_literal base body
    | [] => None
    end in
  match parsed with Some n => Ok n | None => Raise ValueError end.

(** ** [bytes.decode()]: strict UTF-8 *)

(** Strings are kept as their UTF-8 bytes, so a successful decode returns
    the same bytes; it raises [UnicodeDecodeError] on ill-formed input. *)
Definition in_range (lo hi : Z) (c : ascii) : bool :=
  let n := Z.of_nat (nat_of_ascii c) in (lo <=? n) && (n <=? hi).

Fixpoint utf8_ok (fuel : nat) (l : list ascii) : bool :=
  match fuel with
  | O => match l with [] => true | _ => false end
  | S fuel' =>
      match l with
      | [] => true
      | a :: l1 =>
          if in_range 0 127 a then utf8_ok fuel' l1
          else match l1 with
          | b :: l2 =>
              if in_range 194 223 a && in_range 128 191 b then utf8_ok fuel' l2
              else match l2 with
              | c :: l3 =>
                  if (in_range 224 224 a && in_range 160 191 b
                      || in_range 225 236 a && in_range 128 191 b
                      || in_range 237 237 a && in_range 128 159 b
                      || in_range 238 239 a && in_range 128 191 b)
                     && in_range 128 191 c
                  then utf8_ok fuel' l3
                  else match l3 with
                  | d :: l4 =>
                      if (in_range 240 240 a && in_range 144 191 b
                          || in_range 241 243 a && in_range 128 191 b
                          || in_range 244 244 a && in_range 128 143 b)
                         && in_range 128 191 c && in_range 128 191 d
                      then utf8_ok fuel' l4
                      else false
                  | [] => false
                  end
              | [] => false
              end
          | [] => false
          end
      end
  end.

Definition decode (b : string) : result string :=
  if utf8_ok (String.length b) (chars b) then Ok b else Raise UnicodeDecodeError.

(** ** [re.escape] (Python 3.7 and later) *)

Definition re_special : list ascii :=
  (chars "()[]{}?*+-|^$\.&~# " ++
   map ascii_of_nat [9; 10; 13; 11; 12]%nat)%list.

Definition re_escape (s : string) : string :=
  str (flat_map (fun c => if existsb (Ascii.eqb c) re_special
                          then ["\"%char; c] else [c]) (chars s)).

(** ** [any(f(x) for x in l)] when [f] may raise *)

Fixpoint any_r {A} (f : A -> result bool) (l : list A) : result bool :=
  match l with
  | [] => Ok false
  | x :: l' =>
      match f x with
      | Raise e => Raise e
      | Ok true => Ok true
      | Ok false => any_r f l'
      end
  end.

End Py.

Import Py.
Local Open Scope py_scope.

(* ===================================================================== *)
(** * The interface to the operating system                               *)
(* ===================================================================== *)

(** Every call the three source files make outside Python itself.  [W] is
    the state of the world; a file object is a reference into it, so
    [seek], [write] and [readinto] change [W].  The libc entry points
    return the C return value together with the errno that
    [ctypes.get_errno()] would then report. *)
Class OS (W : Type) := {
  file : Type;
  (** [os.kill(pid, sig)], [os.waitpid(pid, options)] on an int [pid] *)
  os_kill : Z -> Z -> M W unit;
  os_waitpid : Z -> Z -> M W (Z * Z);
  (** [_libc.ptrace(command, pid, arg1, arg2)] *)
  libc_ptrace : Z -> Z -> Z -> Z -> W -> (Z * Z) * W;
  (** [os.strerror(errno)] *)
  strerror : Z -> string;
  (** [_libc.process_vm_readv(pid, local, 1, remote, 1, 0)] with one local
      and one remote segment of [size] bytes at [base]: return value,
      errno, and the bytes stored at the start of the local buffer *)
  libc_process_vm_readv : Z -> Z -> Z -> W -> (Z * Z * list byte) * W;
  (** [_libc.process_vm_writev(pid, local, 1, remote, 1, 0)], the local
      segment holding the given bytes *)
  libc_process_vm_writev : Z -> Z -> list byte -> W -> (Z * Z) * W;
  (** [os.listdir(path)] *)
  os_listdir : string -> M W (list string);
  (** [open(path, mode)] and the methods of the file object *)
  io_open : string -> string -> M W file;
  io_close : file -> M W unit;
  io_seek : file -> Z -> M W Z;
  (** [f.write(b)]: the count it returns *)
  io_write : file -> list byte -> M W Z;
  (** [f.readinto(b)] for a buffer of the given size: the bytes stored at
      the start of the buffer (the count it returns is their number) *)
  io_readinto : file -> Z -> M W (list byte);
  (** [f.read()] of a binary file *)
  io_read : file -> M W string;
  (** [for line in f] on a text file: the lines delivered, and the
      exception that ended the iteration when it was not the end of file *)
  io_lines : file -> W -> (list string * option exn) * W;
}.

(** The two library functions the region filter calls.  [re_match x s] is
    [re.match(x, s) is not None] and raises when [x] does not compile;
    [fnmatch name pat] is [fnmatch.fnmatch(name, pat)]. *)
Class Patterns := {
  re_match : string -> string -> result bool;
  fnmatch : string -> string -> bool;
}.

(** [with open(path, mode) as f: body f]. *)
Definition with_open {W} `{OS W} {A} (path mode : string)
    (body : file -> M W A) : M W A :=
  f <- io_open path mode ;;
  try_finally (body f) (io_close f).

(** Storing [data] at the start of a ctypes buffer. *)
Definition store_prefix (buffer data : list byte) : list byte :=
  (firstn (length buffer) data ++ skipn (length data) buffer)%list.

(** [os.kill] and [os.waitpid] called with an attribute that may hold
    [None]: the argument conversion raises [TypeError]. *)
Definition py_kill {W} `{OS W} (pid : option Z) (sig : Z) : M W unit :=
  match pid with
  | None => raise TypeError
  | Some p => os_kill p sig
  end.

Definition py_waitpid {W} `{OS W} (pid : option Z) (options : Z)
  : M W (Z * Z) :=
  match pid with
  | None => raise TypeError
  | Some p => os_waitpid p options
  end.

Definition SIGCONT : Z := 18.
Definition SIGSTOP : Z := 19.

Definition NUL : ascii := ascii_of_nat 0.

(** [os.listdir] entries that [int()] accepts, in listing order: the body
    of [list_available_pids], the same in both backends. *)
Fixpoint ints_of_entries (entries : list string) : result (list Z) :=
  match entries with
  | [] => Ok []
  | pid_str :: rest =>
      match py_int 10 pid_str with
      | Ok n => rbind (ints_of_entries rest) (fun pids => Ok (n :: pids))
      | Raise ValueError => ints_of_entries rest
      | Raise e => Raise e
      end
  end.

(** The address range of a mapping line:
    [start, stop = (int(bound, 16) for bound in bounds.split('-'))]. *)
Definition parse_bounds (bounds : string) : result (Z * Z) :=
  match split_on "-"%char bounds with
  | [a; b] =>
      rbind (py_int 16 a) (fun start =>
      rbind (py_int 16 b) (fun stop => Ok (start, stop)))
  | _ => Raise ValueError
  end.

(** [bounds, privileges = fields[0:2]]. *)
Definition unpack2 (fields : list string) : result (string * string) :=
  match firstn 2 fields with
  | [a; b] => Ok (a, b)
  | _ => Raise ValueError
  end.

(** The loop [for line in maps: ...; regions.append(...)]: [step] gives,
    for a line, the region to append or [None] for [continue]. *)
Fixpoint collect_regions (step : string -> result (option (Z * Z)))
    (lines : list string) : result (list (Z * Z)) :=
  match lines with
  | [] => Ok []
  | line :: rest =>
      match step line with
      | Raise e => Raise e
      | Ok None => collect_regions step rest
      | Ok (Some r) =>
          rbind (collect_regions step rest) (fun rs => Ok (r :: rs))
      end
  end.

Definition scan_maps {W} `{OS W} (step : string -> result (option (Z * Z)))
    (maps : file) : M W (list (Z * Z)) :=
  fun w =>
    let '((lines, stopped), w') := io_lines maps w in
    match collect_regions step lines, stopped with
    | Raise e, _ => (Raise e, w')
    | Ok _, Some e => (Raise e, w')
    | Ok regions, None => (Ok regions, w')
    end.

(** ** Code that linux.py and linux_vm.py both contain, word for word *)

Section Shared.
Context {W : Type} `{OS W}.

(** [with open(path, 'rb') as f: f.read().decode().split('\x00')[0]]. *)
Definition first_token_of (path : string) : M W string :=
  with_open path "rb" (fun f =>
    raw <- io_read f ;;
    text <- lift (decode raw) ;;
    ret (hd "" (split_on NUL text))).

(** [get_path]: the path it opens is the literal ['/proc/{}/cmdline'];
    no [format] call fills in the pid. *)
Definition shared_get_path : M W string :=
  try_except (first_token_of "/proc/{}/cmdline") is_FileNotFoundError
             (ret "").

(** [list_available_pids]. *)
Definition shared_list_available_pids : M W (list Z) :=
  entries <- os_listdir "/proc" ;;
  lift (ints_of_entries entries).

(** The loop of [get_pid_by_name] over the pids still to visit.  The test
    [path is not None] always holds and is left out. *)
Fixpoint find_pid (target_name : string) (pids : list Z)
  : M W (option Z) :=
  match pids with
  | [] => ret None
  | p :: rest =>
      fun w =>
        match first_token_of ("/proc/" ++ str_of_Z p ++ "/cmdline")%string w
        with
        | (Raise e, w') =>
            if is_FileNotFoundError e then find_pid target_name rest w'
            else (Raise e, w')
        | (Ok path, w') =>
            let name := basename path in
            if String.eqb name target_name then (Ok (Some p), w')
            else find_pid target_name rest w'
        end
  end.

(** [get_pid_by_name]. *)
Definition shared_get_pid_by_name (target_name : string) : M W (option Z) :=
  pids <- shared_list_available_pids ;;
  find_pid target_name pids.

End Shared.

(* ===================================================================== *)
(** * linux.py: the ptrace and /proc/pid/mem backend                      *)
(* ===================================================================== *)

Module Linux.

(** [ptrace_commands], the two entries the class uses. *)
Definition PTRACE_DETACH : Z := 17.
Definition PTRACE_SEIZE : Z := 16902.

(** The attributes of an instance.  [pid] holds an int, or [None] after
    [close]. *)
Record Process := { pid : option Z }.

(** The attributes of the class object itself.  [blacklist = []] is
    assigned in the class body and no method ever assigns
    [self.blacklist], so [self.blacklist] always reads this one list. *)
Record ProcessClass := { blacklist : list string }.

Definition class_body : ProcessClass := {| blacklist := [] |}.

Section Methods.
Context {W : Type} `{OS W} `{Patterns}.

(** [ptrace(command, pid, arg1, arg2)]. *)
Definition ptrace (command : Z) (pid : option Z) (arg1 arg2 : Z) : M W Z :=
  match pid with
  | None => raise ArgumentError
  | Some p =>
      fun w =>
        let '((result, err_no), w') := libc_ptrace command p arg1 arg2 w in
        if (result =? -1) && negb (err_no =? 0)
        then (Raise (MemEditError
                ("ptrace(" ++ str_of_Z command ++ ", " ++ str_of_Z p ++ ", "
                 ++ str_of_Z arg1 ++ ", " ++ str_of_Z arg2 ++ ")"
                 ++ " failed with error " ++ str_of_Z err_no ++ ": "
                 ++ strerror err_no)%string), w')
        else (Ok result, w')
  end.

(** [Process(process_id)]. *)
Definition init (process_id : Z) : M W Process :=
  ptrace PTRACE_SEIZE (Some process_id) 0 0 ;;;
  ret {| pid := Some process_id |}.


(** [self.close()]: the outcome, the instance afterwards, the world
    afterwards.  [self.pid = None] is the last statement, so the instance
    changes only when nothing before it raised. *)
Definition close (self : Process) (w : W) : result unit * Process * W :=
  let body : M W unit :=
    py_kill (pid self) SIGSTOP ;;;
    try_except (py_waitpid (pid self) 0 ;;; ret tt)
               is_ChildProcessError (ret tt) ;;;
    ptrace PTRACE_DETACH (pid self) 0 0 ;;;
    py_kill (pid self) SIGCONT in
  match body w with
  | (Ok _, w') => (Ok tt, {| pid := None |}, w')
  | (Raise e, w') => (Raise e, self, w')
  end.

Definition mem_path (self : Process) : string :=
  ("/proc/" ++ format_opt_int (pid self) ++ "/mem")%string.

(** [self.write_memory(base_address, write_buffer)]. *)
Definition write_memory (self : Process) (base_address : Z)
    (write_buffer : list byte) : M W unit :=
  with_open (mem_path self) "rb+" (fun mem =>
    io_seek mem base_address ;;;
    io_write mem write_buffer ;;;
    ret tt).

(** [self.read_memory(base_address, read_buffer)]: the buffer it returns
    is the one it was given, after [readinto] stored into it. *)
Definition read_memory (self : Process) (base_address : Z)
    (read_buffer : list byte) : M W (list byte) :=
  with_open (mem_path self) "rb+" (fun mem =>
    io_seek mem base_address ;;;
    data <- io_readinto mem (Z.of_nat (length read_buffer)) ;;
    ret (store_prefix read_buffer data)).

(** [self.get_path()]. *)
Definition get_path (self : Process) : M W string := shared_get_path.

(** [Process.list_available_pids()]. *)
Definition list_available_pids : M W (list Z) := shared_list_available_pids.

(** [Process.get_pid_by_name(target_name)]. *)
Definition get_pid_by_name (target_name : string) : M W (option Z) :=
  shared_get_pid_by_name target_name.

(** The list [whole] once the two statements after [line.split()] have
    run: a list shorter than six gets one empty string appended, and in a
    list of seven or more, item 5 becomes items 5 and up joined by spaces
    (the items after it stay). *)
Definition fields (line : string) : list string :=
  let whole := split_ws line in
  let whole := if (length whole <? 6)%nat then (whole ++ [""])%list
               else whole in
  if (7 <=? length whole)%nat
  then (firstn 5 whole ++ [join " " (skipn 5 whole)] ++ skipn 6 whole)%list
  else whole.

(** [whole[5]]. *)
Definition item5 (whole : list string) : result string :=
  match nth_error whole 5 with
  | Some s => Ok s
  | None => Raise IndexError
  end.

(** The body of the loop of [list_mapped_regions] for one line: the region
    appended, or [None] where the body reaches [continue]. *)
Definition region_of_line (cls : ProcessClass) (writeable_only : bool)
    (include_paths : list string) (line : string)
  : result (option (Z * Z)) :=
  if str_in "/dev/dri/" line then Ok None
  else if str_in "Proton" line then Ok None
  else
    let whole := fields line in
    rbind
      (match include_paths with
       | [] => Ok true
       | _ =>
           rbind (any_r (fun x => rbind (item5 whole) (re_match x))
                        include_paths) (fun as_regex =>
           if as_regex then Ok true
           else any_r (fun x => rbind (item5 whole) (re_match (re_escape x)))
                      include_paths)
       end) (fun included =>
    if negb included then Ok None
    else
    rbind
      (match blacklist cls with
       | [] => Ok false
       | _ => any_r (fun x => rbind (item5 whole)
                                    (fun p => Ok (fnmatch p x)))
                    (blacklist cls)
       end) (fun excluded =>
    if excluded then Ok None
    else
    rbind (unpack2 whole) (fun '(bounds, privileges) =>
    if negb (str_in "r" privileges) then Ok None
    else if writeable_only && negb (str_in "w" privileges) then Ok None
    else rbind (parse_bounds bounds) (fun r => Ok (Some r))))).

(** [self.list_mapped_regions(writeable_only, include_paths)]. *)
Definition list_mapped_regions (cls : ProcessClass) (self : Process)
    (writeable_only : bool) (include_paths : list string)
  : M W (list (Z * Z)) :=
  with_open ("/proc/" ++ format_opt_int (pid self) ++ "/maps")%string "r"
    (scan_maps (region_of_line cls writeable_only include_paths)).

End Methods.
End Linux.

(* ===================================================================== *)
(** * linux_vm.py: the process_vm_readv / process_vm_writev backend       *)
(* ===================================================================== *)

Module LinuxVm.

Record Process := { pid : option Z }.

(** [_error_checker(result, function, arguments)], the [errcheck] hook of
    both libc functions.  It returns [None], and that is what the call of
    the libc function then evaluates to. *)
Definition _error_checker (result errno : Z) : Py.result unit :=
  if result =? -1 then Raise (OSError errno) else Ok tt.

(** The libc functions are called without [argtypes] (the module assigns
    [args], which ctypes does not read), so ctypes converts the [pid]
    argument itself: an int is passed on, [None] becomes a null pointer. *)
Definition pid_argument (pid : option Z) : Z :=
  match pid with Some p => p | None => 0 end.

Section Methods.
Context {W : Type} `{OS W}.

(** [read_process_memory(pid, base, buffer)]. *)
Definition read_process_memory (pid : option Z) (base : Z)
    (buffer : list byte) : M W (list byte) :=
  fun w =>
    let size := Z.of_nat (length buffer) in
    let '((result, errno, data), w') :=
      libc_process_vm_readv (pid_argument pid) base size w in
    match _error_checker result errno with
    | Raise e => (Raise e, w')
    | Ok res_size => (Ok (store_prefix buffer data), w')
    end.

(** [write_process_memory(pid, base, buffer)]: it returns [res_size],
    which is the [None] of [_error_checker]. *)
Definition write_process_memory (pid : option Z) (base : Z)
    (buffer : list byte) : M W unit :=
  fun w =>
    let '((result, errno), w') :=
      libc_process_vm_writev (pid_argument pid) base buffer w in
    match _error_checker result errno with
    | Raise e => (Raise e, w')
    | Ok res_size => (Ok res_size, w')
    end.

(** [Process(process_id)]. *)
Definition init (process_id : Z) : Process := {| pid := Some process_id |}.

(** [self.close()]. *)
Definition close (self : Process) : Py.result unit * Process :=
  (Ok tt, {| pid := None |}).

(** [self.write_memory(base_address, write_buffer)]. *)
Definition write_memory (self : Process) (base_address : Z)
    (write_buffer : list byte) : M W unit :=
  write_process_memory (pid self) base_address write_buffer ;;;
  ret tt.

(** [self.read_memory(base_address, read_buffer)]. *)
Definition read_memory (self : Process) (base_address : Z)
    (read_buffer : list byte) : M W (list byte) :=
  read_process_memory (pid self) base_address read_buffer.

(** [self.get_path()]. *)
Definition get_path (self : Process) : M W string := shared_get_path.

(** [Process.list_available_pids()]. *)
Definition list_available_pids : M W (list Z) := shared_list_available_pids.

(** [Process.get_pid_by_name(target_name)]. *)
Definition get_pid_by_name (target_name : string) : M W (option Z) :=
  shared_get_pid_by_name target_name.

(** The body of the loop of [list_mapped_regions] for one line.  The
    method takes [include_paths] and never reads it. *)
Definition region_of_line (writeable_only : bool)
    (include_paths : list string) (line : string)
  : Py.result (option (Z * Z)) :=
  if str_in "/dev/dri/" line then Ok None
  else if str_in "Proton" line then Ok None
  else
    rbind (unpack2 (split_ws line)) (fun '(bounds, privileges) =>
    if negb (str_in "r" privileges) then Ok None
    else if writeable_only && negb (str_in "w" privileges) then Ok None
    else rbind (parse_bounds bounds) (fun r => Ok (Some r))).

(** [self.list_mapped_regions(writeable_only, include_paths)]. *)
Definition list_mapped_regions (self : Process) (writeable_only : bool)
    (include_paths : list string) : M W (list (Z * Z)) :=
  with_open ("/proc/" ++ format_opt_int (pid self) ++ "/maps")%string "r"
    (scan_maps (region_of_line writeable_only include_paths)).

End Methods.
End LinuxVm.

(* ===================================================================== *)
(** * __init__.py: the choice of backend at import                        *)
(* ===================================================================== *)

Module Init.

(** The class that the name [Process] of the package is bound to. *)
Inductive backend : Type :=
| windows_Process
| linux_vm_Process
| linux_Process.

(** What the module-level code reads from the host: [platform.system()],
    [os.uname().release] and [os.geteuid()]. *)
Record Host := { system : string; release : string; euid : Z }.

(** The module-level statements from [system = platform.system()] on. *)
Definition select (h : Host) : result backend :=
  if String.eqb (system h) "Windows" then Ok windows_Process
  else if String.eqb (system h) "Linux" then
    let kv := split_on "."%char (release h) in
    rbind (match nth_error kv 0 with
           | Some s => py_int 10 s
           | None => Raise IndexError
           end) (fun major =>
    rbind (match nth_error kv 1 with
           | Some s => py_int 10 s
           | None => Raise IndexError
           end) (fun minor =>
    if (euid h =? 0) && ((major >? 3) || ((major =? 3) && (minor >=? 2)))
    then Ok linux_vm_Process
    else Ok linux_Process))
  else Raise (MemEditError "Only Linux and Windows are currently supported.").

End Init.

(* ===================================================================== *)
(** * A reference world                                                   *)
(* ===================================================================== *)

(** An executable instance of [OS]: the per-process entries of procfs, the
    two signals and the two ptrace requests the backends use, and the
    memory of each target.  It is sequential: a target's state changes
    only through the calls made on it. *)
Module RefOS.

(** A mapped range [r_start, r_stop) and what the caller may do in it. *)
Record region := {
  r_start : Z;
  r_stop : Z;
  r_read : bool;
  r_write : bool;
}.

Record proc := {
  (** the bytes of /proc/pid/cmdline *)
  p_cmdline : string;
  (** the lines of /proc/pid/maps *)
  p_maps : list string;
  p_regions : list region;
  (** memory contents; an address with no entry holds a zero byte *)
  p_bytes : gmap Z byte;
  (** the caller has no permission over this process: every call on it
      fails with EPERM *)
  p_foreign : bool;
  (** the caller is its tracer *)
  p_traced : bool;
  (** it is stopped and the stop has not been waited for *)
  p_stopped : bool;
}.

Inductive fkind : Type := FMem | FCmdline | FMaps.

Record openfile := { f_pid : Z; f_kind : fkind; f_pos : Z }.

Record world := {
  procs : gmap Z proc;
  (** what [os.listdir('/proc')] returns: a snapshot, so a listed process
      may be gone when its files are opened *)
  listing : list string;
  files : gmap nat openfile;
  next_fd : nat;
}.

Definition with_procs (w : world) (ps : gmap Z proc) : world :=
  {| procs := ps; listing := listing w; files := files w;
     next_fd := next_fd w |}.

Definition with_files (w : world) (fs : gmap nat openfile) (n : nat)
  : world :=
  {| procs := procs w; listing := listing w; files := fs; next_fd := n |}.

Definition with_bytes (pr : proc) (m : gmap Z byte) : proc :=
  {| p_cmdline := p_cmdline pr; p_maps := p_maps pr;
     p_regions := p_regions pr; p_bytes := m; p_foreign := p_foreign pr;
     p_traced := p_traced pr; p_stopped := p_stopped pr |}.

Definition with_trace (pr : proc) (traced stopped : bool) : proc :=
  {| p_cmdline := p_cmdline pr; p_maps := p_maps pr;
     p_regions := p_regions pr; p_bytes := p_bytes pr;
     p_foreign := p_foreign pr; p_traced := traced; p_stopped := stopped |}.

(** ** Memory *)

Definition in_region (a : Z) (r : region) : bool :=
  (r_start r <=? a) && (a <? r_stop r).

Definition can_read (rs : list region) (a : Z) : bool :=
  existsb (fun r => r_read r && in_region a r) rs.

Definition can_write (rs : list region) (a : Z) : bool :=
  existsb (fun r => r_write r && in_region a r) rs.

Definition byte_at (m : gmap Z byte) (a : Z) : byte :=
  match m !! a with Some b => b | None => x00 end.

(** The bytes at [a], [a+1], ... up to [n] of them, stopping before the
    first address that cannot be read. *)
Fixpoint load (rs : list region) (m : gmap Z byte) (a : Z) (n : nat)
  : list byte :=
  match n with
  | O => []
  | S n' => if can_read rs a then byte_at m a :: load rs m (a + 1) n'
            else []
  end.

(** Storing [bs] from [a] on, stopping before the first address that
    cannot be written: the number of bytes stored and the new contents. *)
Fixpoint store (rs : list region) (m : gmap Z byte) (a : Z)
    (bs : list byte) : nat * gmap Z byte :=
  match bs with
  | [] => (O, m)
  | b :: bs' =>
      if can_write rs a
      then let '(n, m') := store rs (<[a:=b]> m) (a + 1) bs' in (S n, m')
      else (O, m)
  end.

(** ** Signals, wait and ptrace *)

Definition kill (p sig : Z) : M world unit :=
  fun w =>
    match procs w !! p with
    | None => (Raise (OSError ESRCH), w)
    | Some pr =>
        if p_foreign pr then (Raise (OSError EPERM), w)
        else if sig =? SIGSTOP
        then (Ok tt, with_procs w (<[p := with_trace pr (p_traced pr) true]>
                                     (procs w)))
        else if sig =? SIGCONT
        then (Ok tt, with_procs w (<[p := with_trace pr (p_traced pr) false]>
                                     (procs w)))
        else (Ok tt, w)
    end.

(** The caller has no children, so only a tracee can be waited for.  The
    status of a stop by SIGSTOP is [0x137f]. *)
Definition waitpid (p options : Z) : M world (Z * Z) :=
  fun w =>
    match procs w !! p with
    | None => (Raise (OSError ECHILD), w)
    | Some pr =>
        if negb (p_traced pr) then (Raise (OSError ECHILD), w)
        else if p_stopped pr then (Ok (p, 4991), w)
        else if Z.testbit options 0 then (Ok (0, 0), w)
        else (Raise Hangs, w)
    end.

Definition ptrace_call (command p arg1 arg2 : Z) (w : world)
  : (Z * Z) * world :=
  match procs w !! p with
  | None => ((-1, ESRCH), w)
  | Some pr =>
      if command =? Linux.PTRACE_SEIZE then
        if p_foreign pr || p_traced pr then ((-1, EPERM), w)
        else ((0, 0), with_procs w (<[p := with_trace pr true (p_stopped pr)]>
                                      (procs w)))
      else if command =? Linux.PTRACE_DETACH then
        if p_traced pr && p_stopped pr
        then ((0, 0), with_procs w (<[p := with_trace pr false false]>
                                      (procs w)))
        else ((-1, ESRCH), w)
      else ((-1, EIO), w)
  end.

Definition strerror_text (errno : Z) : string :=
  if errno =? EPERM then "Operation not permitted"
  else if errno =? ENOENT then "No such file or directory"
  else if errno =? ESRCH then "No such process"
  else if errno =? EIO then "Input/output error"
  else if errno =? ECHILD then "No child processes"
  else if errno =? EACCES then "Permission denied"
  else if errno =? EFAULT then "Bad address"
  else ("Unknown error " ++ str_of_Z errno)%string.

(** ** The vectorized copy calls *)

(** The kernel copies page by page and reports the bytes copied before the
    first fault; it fails with EFAULT only when it copied nothing. *)
Definition process_vm_readv (p base size : Z) (w : world)
  : (Z * Z * list byte) * world :=
  match procs w !! p with
  | None => ((-1, ESRCH, []), w)
  | Some pr =>
      if p_foreign pr then ((-1, EPERM, []), w)
      else
        let data := load (p_regions pr) (p_bytes pr) base (Z.to_nat size) in
        if (0 <? size) && (length data =? 0)%nat then ((-1, EFAULT, []), w)
        else ((Z.of_nat (length data), 0, data), w)
  end.

Definition process_vm_writev (p base : Z) (bs : list byte) (w : world)
  : (Z * Z) * world :=
  match procs w !! p with
  | None => ((-1, ESRCH), w)
  | Some pr =>
      if p_foreign pr then ((-1, EPERM), w)
      else
        let '(n, m') := store (p_regions pr) (p_bytes pr) base bs in
        if (0 <? length bs)%nat && (n =? 0)%nat then ((-1, EFAULT), w)
        else ((Z.of_nat n, 0), with_procs w (<[p := with_bytes pr m']>
                                               (procs w)))
  end.

(** ** Files: /proc/pid/mem, /proc/pid/cmdline and /proc/pid/maps *)

Definition EBADF : Z := 9.

(** [/proc/x/f] as the pair of [x] and [f]. *)
Definition proc_path (path : string) : option (string * string) :=
  match split_on "/"%char path with
  | [""; "proc"; x; f] => Some (x, f)
  | _ => None
  end.

(** A directory of procfs names a process by its pid in decimal, with no
    sign and no leading zero. *)
Definition pid_of_name (x : string) : option Z :=
  match NilZero.int_of_string x with
  | Some d =>
      let n := Z.of_int d in
      if (0 <=? n) && String.eqb (str_of_Z n) x then Some n else None
  | None => None
  end.

Definition kind_of_name (f : string) : option fkind :=
  if String.eqb f "mem" then Some FMem
  else if String.eqb f "cmdline" then Some FCmdline
  else if String.eqb f "maps" then Some FMaps
  else None.

Definition open (path mode : string) : M world nat :=
  fun w =>
    match proc_path path with
    | Some (x, f) =>
        match pid_of_name x, kind_of_name f with
        | Some p, Some k =>
            match procs w !! p with
            | Some pr =>
                if p_foreign pr then (Raise (OSError EPERM), w)
                else (Ok (next_fd w),
                      with_files w
                        (<[next_fd w := {| f_pid := p; f_kind := k;
                                           f_pos := 0 |}]> (files w))
                        (S (next_fd w)))
            | None => (Raise (OSError ENOENT), w)
            end
        | _, _ => (Raise (OSError ENOENT), w)
        end
    | None => (Raise (OSError ENOENT), w)
    end.

Definition close (f : nat) : M world unit :=
  fun w => (Ok tt, with_files w (delete f (files w)) (next_fd w)).

(** The open file [f] and the process behind it.  An operation on a closed
    file raises [ValueError]; the process may have gone since the open. *)
Definition target (f : nat) (w : world) : result (openfile * proc) :=
  match files w !! f with
  | None => Raise ValueError
  | Some o =>
      match procs w !! f_pid o with
      | None => Raise (OSError ESRCH)
      | Some pr => Ok (o, pr)
      end
  end.

Definition moved (o : openfile) (pos : Z) : openfile :=
  {| f_pid := f_pid o; f_kind := f_kind o; f_pos := pos |}.

Definition seek (f : nat) (pos : Z) : M world Z :=
  fun w =>
    match files w !! f with
    | None => (Raise ValueError, w)
    | Some o => (Ok pos, with_files w (<[f := moved o pos]> (files w))
                                    (next_fd w))
    end.

(** A write through the buffered file object either gets every byte into
    the target or raises: what the kernel did not take is written again,
    and that write fails with EIO. *)
Definition write (f : nat) (bs : list byte) : M world Z :=
  fun w =>
    match target f w with
    | Raise e => (Raise e, w)
    | Ok (o, pr) =>
        match f_kind o with
        | FMem =>
            let '(n, m') := store (p_regions pr) (p_bytes pr) (f_pos o) bs in
            let w' := with_procs w (<[f_pid o := with_bytes pr m']>
                                      (procs w)) in
            if (n =? length bs)%nat
            then (Ok (Z.of_nat n),
                  with_files w'
                    (<[f := moved o (f_pos o + Z.of_nat n)]> (files w'))
                    (next_fd w'))
            else (Raise (OSError EIO), w')
        | _ => (Raise (OSError EBADF), w)
        end
    end.

(** A read through the buffered file object fills the buffer or raises:
    after a short read it reads again, and that read fails with EIO. *)
Definition readinto (f : nat) (size : Z) : M world (list byte) :=
  fun w =>
    match target f w with
    | Raise e => (Raise e, w)
    | Ok (o, pr) =>
        match f_kind o with
        | FMem =>
            let data := load (p_regions pr) (p_bytes pr) (f_pos o)
                             (Z.to_nat size) in
            if (length data =? Z.to_nat size)%nat
            then (Ok data,
                  with_files w (<[f := moved o (f_pos o + size)]> (files w))
                             (next_fd w))
            else (Raise (OSError EIO), w)
        | _ => (Raise (OSError EBADF), w)
        end
    end.

Definition read (f : nat) : M world string :=
  fun w =>
    match target f w with
    | Raise e => (Raise e, w)
    | Ok (o, pr) =>
        match f_kind o with
        | FCmdline => (Ok (p_cmdline pr), w)
        | _ => (Raise (OSError EBADF), w)
        end
    end.

Definition lines (f : nat) (w : world)
  : (list string * option exn) * world :=
  match target f w with
  | Raise e => (([], Some e), w)
  | Ok (o, pr) =>
      match f_kind o with
      | FMaps => ((p_maps pr, None), w)
      | _ => (([], Some (OSError EBADF)), w)
      end
  end.

Definition listdir (path : string) : M world (list string) :=
  fun w =>
    if String.eqb path "/proc" then (Ok (listing w), w)
    else (Raise (OSError ENOENT), w).

#[global] Instance ref_os : OS world := {|
  file := nat;
  os_kill := kill;
  os_waitpid := waitpid;
  libc_ptrace := ptrace_call;
  strerror := strerror_text;
  libc_process_vm_readv := process_vm_readv;
  libc_process_vm_writev := process_vm_writev;
  os_listdir := listdir;
  io_open := open;
  io_close := close;
  io_seek := seek;
  io_write := write;
  io_readinto := readinto;
  io_read := read;
  io_lines := lines;
|}.

End RefOS.

(* ===================================================================== *)
(** * Reference pattern matchers                                          *)
(* ===================================================================== *)

(** An executable instance of [Patterns].  [fnmatch] is the glob language
    of [fnmatch.translate]; [re_match] compiles only literal patterns (no
    operator, and a backslash only before punctuation, as [re.escape]
    writes them) and refuses every other pattern. *)
Module RefPatterns.

(** The characters up to the next [']'], and what follows it. *)
Fixpoint class_span (l : list ascii) : option (list ascii * list ascii) :=
  match l with
  | [] => None
  | c :: l' =>
      if Ascii.eqb c "]"%char then Some ([], l')
      else match class_span l' with
           | Some (s, r) => Some (c :: s, r)
           | None => None
           end
  end.

(** After a ['[']: whether the class is negated, its characters, and the
    rest of the pattern; [None] when no [']'] closes it.  A [']'] right
    after the ['['] or the ['!'] belongs to the class. *)
Definition parse_class (p : list ascii)
  : option (bool * list ascii * list ascii) :=
  let '(neg, p1) := match p with
                    | c :: p' => if Ascii.eqb c "!"%char then (true, p')
                                 else (false, p)
                    | [] => (false, p)
                    end in
  match p1 with
  | c :: p2 =>
      if Ascii.eqb c "]"%char
      then match class_span p2 with
           | Some (s, r) => Some (neg, c :: s, r)
           | None => None
           end
      else match class_span p1 with
           | Some (s, r) => Some (neg, s, r)
           | None => None
           end
  | [] => None
  end.

Definition char_le (a b : ascii) : bool :=
  (nat_of_ascii a <=? nat_of_ascii b)%nat.

(** Membership in a class: [a-b] is a range, empty when [b] is below [a];
    every other character stands for itself. *)
Fixpoint in_class (stuff : list ascii) (c : ascii) : bool :=
  match stuff with
  | [] => false
  | a :: tl =>
      match tl with
      | m :: b :: rest =>
          if Ascii.eqb m "-"%char
          then (char_le a c && char_le c b) || in_class rest c
          else Ascii.eqb a c || in_class tl c
      | _ => Ascii.eqb a c || in_class tl c
      end
  end.

Fixpoint glob (fuel : nat) (p s : list ascii) : bool :=
  match fuel with
  | O => false
  | S fuel' =>
      match p with
      | [] => match s with [] => true | _ => false end
      | c :: p' =>
          if Ascii.eqb c "*"%char then
            glob fuel' p' s ||
            match s with _ :: s' => glob fuel' p s' | [] => false end
          else if Ascii.eqb c "?"%char then
            match s with _ :: s' => glob fuel' p' s' | [] => false end
          else if Ascii.eqb c "["%char then
            match parse_class p', s with
            | Some (neg, stuff, rest), d :: s' =>
                xorb neg (in_class stuff d) && glob fuel' rest s'
            | None, d :: s' => Ascii.eqb d "["%char && glob fuel' p' s'
            | _, [] => false
            end
          else
            match s with
            | d :: s' => Ascii.eqb c d && glob fuel' p' s'
            | [] => false
            end
      end
  end.

Definition fnmatch (name pat : string) : bool :=
  glob (S (String.length pat + String.length name)) (chars pat) (chars name).

Definition is_alnum (c : ascii) : bool :=
  let n := nat_of_ascii c in
  ((48 <=? n) && (n <=? 57) || (65 <=? n) && (n <=? 90)
   || (97 <=? n) && (n <=? 122))%nat.

Definition re_operators : list ascii := chars ".^$*+?{}[]|()".

(** The text a literal pattern matches, [None] for any other pattern. *)
Fixpoint literal_of (p : list ascii) : option (list ascii) :=
  match p with
  | [] => Some []
  | c :: p' =>
      if Ascii.eqb c "\"%char then
        match p' with
        | d :: p'' =>
            if is_alnum d || (128 <=? nat_of_ascii d)%nat then None
            else match literal_of p'' with
                 | Some l => Some (d :: l)
                 | None => None
                 end
        | [] => None
        end
      else if existsb (Ascii.eqb c) re_operators then None
      else match literal_of p' with
           | Some l => Some (c :: l)
           | None => None
           end
  end.

Definition re_match (x s : string) : result bool :=
  match literal_of (chars x) with
  | Some l => Ok (is_prefix l (chars s))
  | None => Raise ReError
  end.

#[global] Instance ref_patterns : Patterns :=
  Build_Patterns re_match fnmatch.

End RefPatterns.

(* ===================================================================== *)
(** * Vocabulary of the statements                                        *)
(* ===================================================================== *)

(** The path [get_pid_by_name] opens for a pid. *)
Definition cmdline_file (p : Z) : string :=
  ("/proc/" ++ str_of_Z p ++ "/cmdline")%string.

(** [passes_over name pids w w']: starting in [w], the loop of
    [get_pid_by_name] visits every pid of [pids] and goes on to the next
    one each time, either because opening or reading the command line
    raised [FileNotFoundError] or because the base name of its first token
    is not [name]; [w'] is the world after the last of them. *)
Inductive passes_over {W} `{OS W} (name : string)
  : list Z -> W -> W -> Prop :=
| passes_none (w : W) : passes_over name [] w w
| passes_gone (p : Z) (rest : list Z) (e : exn) (w w1 w2 : W) :
    first_token_of (cmdline_file p) w = (Raise e, w1) ->
    is_FileNotFoundError e = true ->
    passes_over name rest w1 w2 ->
    passes_over name (p :: rest) w w2
| passes_other (p : Z) (rest : list Z) (path : string) (w w1 w2 : W) :
    first_token_of (cmdline_file p) w = (Ok path, w1) ->
    basename path <> name ->
    passes_over name rest w1 w2 ->
    passes_over name (p :: rest) w w2.

(** The path [list_mapped_regions] opens for a pid attribute. *)
Definition maps_file (pid : option Z) : string :=
  ("/proc/" ++ format_opt_int pid ++ "/maps")%string.

(** [maps_read path w lines]: opening [path] in [w] succeeds and iterating
    over the file delivers [lines] up to its end. *)
Definition maps_read {W} `{OS W} (path : string) (w : W)
    (lines : list string) : Prop :=
  exists (f : file) (w1 w2 : W),
    io_open path "r" w = (Ok f, w1) /\
    io_lines f w1 = ((lines, None), w2).

(** [from_line writeable_only lines r]: the region [r] is the address
    range of one of [lines], whose second field contains ['r'] and, when
    [writeable_only] is set, ['w']. *)
Definition from_line (writeable_only : bool) (lines : list string)
    (r : Z * Z) : Prop :=
  exists line bounds privileges,
    In line lines /\
    nth_error (split_ws line) 0 = Some bounds /\
    nth_error (split_ws line) 1 = Some privileges /\
    parse_bounds bounds = Ok r /\
    str_in "r" privileges = true /\
    (writeable_only = true -> str_in "w" privileges = true).

(** [path_included include_paths path]: [re.match] finds one of the
    patterns, or the escaped form of one, at the start of [path]. *)
Definition path_included `{Patterns} (include_paths : list string)
    (path : string) : Prop :=
  exists x, In x include_paths /\
            (re_match x path = Ok true \/
             re_match (re_escape x) path = Ok true).

(* ===================================================================== *)
(** * Example hosts, processes and worlds                                 *)
(* ===================================================================== *)

Module Examples.
Import RefOS.

Definition nl : string := String (ascii_of_nat 10) "".

(** A host on which the package is imported by root on a 5.15 kernel. *)
Definition root_host : Init.Host :=
  {| Init.system := "Linux"; Init.release := "5.15.0-91-generic";
     Init.euid := 0 |}.

Definition freebsd_host : Init.Host :=
  {| Init.system := "FreeBSD"; Init.release := "14.0-RELEASE";
     Init.euid := 0 |}.

(** A target with one readable and writable page at [0x1000]. *)
Definition target_maps : list string :=
  [ ("00400000-00401000 r-xp 00000000 08:01 123 /bin/true" ++ nl)%string;
    ("00001000-00002000 rw-p 00000000 00:00 0" ++ nl)%string;
    ("7f0000000000-7f0000001000 rw-p 00000000 08:01 77 /opt/my app/lib.so"
     ++ nl)%string;
    ("7f0000002000-7f0000003000 rw-s 00000000 00:06 9 /dev/dri/card0"
     ++ nl)%string ].

Definition target_proc : proc :=
  {| p_cmdline := ("/usr/bin/target" ++ String NUL ("--flag" ++ String NUL ""))
                  %string;
     p_maps := target_maps;
     p_regions := [ {| r_start := 4096; r_stop := 8192;
                       r_read := true; r_write := true |} ];
     p_bytes := ∅;
     p_foreign := false; p_traced := false; p_stopped := false |}.

(** The same target once the caller has seized it. *)
Definition traced_proc : proc := with_trace target_proc true false.

(** A process of another user. *)
Definition foreign_proc : proc :=
  {| p_cmdline := ("/sbin/init" ++ String NUL "")%string;
     p_maps := [];
     p_regions := [];
     p_bytes := ∅;
     p_foreign := true; p_traced := false; p_stopped := false |}.

Definition world_of (ps : gmap Z proc) (entries : list string) : world :=
  {| procs := ps; listing := entries; files := ∅; next_fd := 3 |}.

(** Pid 4242 is the target; pid 99 is listed but has exited. *)
Definition w_plain : world :=
  world_of {[ 4242 := target_proc ]} ["self"; "99"; "4242"; "cpuinfo"].

Definition w_traced : world :=
  world_of {[ 4242 := traced_proc ]} ["self"; "99"; "4242"; "cpuinfo"].

(** Pid 1 belongs to another user and is listed before the target. *)
Definition w_foreign : world :=
  world_of {[ 1 := foreign_proc; 4242 := target_proc ]} ["1"; "4242"].

Definition eight_bytes : list byte :=
  [x01; x02; x03; x04; x05; x06; x07; x08].

Definition four_bytes : list byte := [x0a; x0b; x0c; x0d].

End Examples.

(* ===================================================================== *)
(** * Further vocabulary and examples                                     *)
(* ===================================================================== *)

(** The pid a directory entry stands for, when [int()] accepts it. *)
Definition accepted_pid (entry : string) : option Z :=
  match py_int 10 entry with Ok n => Some n | Raise _ => None end.

(** The message of the [MemEditError] that [ptrace] raises. *)
Definition ptrace_error_text {W} `{OS W}
    (command p arg1 arg2 err_no : Z) : string :=
  ("ptrace(" ++ str_of_Z command ++ ", " ++ str_of_Z p ++ ", "
   ++ str_of_Z arg1 ++ ", " ++ str_of_Z arg2 ++ ")"
   ++ " failed with error " ++ str_of_Z err_no ++ ": "
   ++ strerror err_no)%string.

(** The region a loop body appends for a line, if it appends one. *)
Definition kept_region (step : string -> result (option (Z * Z)))
    (line : string) : option (Z * Z) :=
  match step line with Ok (Some r) => Some r | _ => None end.

(** The loop body raises on none of the lines. *)
Definition all_lines_pass (step : string -> result (option (Z * Z)))
    (lines : list string) : Prop :=
  Forall (fun line => is_Ok (step line) = true) lines.

(** A line that neither built-in exclusion of [list_mapped_regions]
    drops. *)
Definition not_excluded (line : string) : Prop :=
  str_in "/dev/dri/" line = false /\ str_in "Proton" line = false.

(** Every descriptor from [next_fd] on is free. *)
Definition fresh_fds (w : RefOS.world) : Prop :=
  forall k : nat, (RefOS.next_fd w <= k)%nat -> RefOS.files w !! k = None.



(** [file_frame f w1 w2]: from [w1] to [w2] no descriptor was handed out
    and no open file other than [f] changed. *)
Definition file_frame (f : nat) (w1 w2 : RefOS.world) : Prop :=
  RefOS.listing w2 = RefOS.listing w1 /\
  RefOS.next_fd w2 = RefOS.next_fd w1 /\
  delete f (RefOS.files w2) = delete f (RefOS.files w1).

(** [opens path o]: [o] is the state of a file just opened at [path], a
    file of the process and of the kind that the path names, at
    position 0. *)
Definition opens (path : string) (o : RefOS.openfile) : Prop :=
  exists x name,
    RefOS.proc_path path = Some (x, name) /\
    RefOS.pid_of_name x = Some (RefOS.f_pid o) /\
    RefOS.kind_of_name name = Some (RefOS.f_kind o) /\
    RefOS.f_pos o = 0.

Module MoreExamples.
Import RefOS.

(** A kernel whose release has a suffix in its second field. *)
Definition rc_host : Init.Host :=
  {| Init.system := "Linux"; Init.release := "6.1-rc1"; Init.euid := 1000 |}.

(** A target whose maps file has a readable line with a bad range. *)
Definition broken_maps : list string :=
  [ ("00400000-00401000 r-xp 00000000 08:01 123 /bin/true"
     ++ Examples.nl)%string;
    ("00g01000-00002000 rw-p 00000000 00:00 0" ++ Examples.nl)%string;
    ("00003000-00004000 rw-p 00000000 00:00 0" ++ Examples.nl)%string ].

Definition broken_proc : proc :=
  {| p_cmdline := p_cmdline Examples.target_proc;
     p_maps := broken_maps;
     p_regions := p_regions Examples.target_proc;
     p_bytes := ∅;
     p_foreign := false; p_traced := false; p_stopped := false |}.

Definition w_broken : world :=
  Examples.world_of {[ 4242 := broken_proc ]} ["4242"].

End MoreExamples.

(* ===================================================================== *)
(** * Backend selection                                                   *)
(* ===================================================================== *)

Section Selection.
Import Init.

Lemma select_linux (h : Host) (a b : string) (rest : list string)
    (major minor : Z) :
  system h = "Linux" ->
  split_on "."%char (release h) = a :: b :: rest ->
  py_int 10 a = Ok major ->
  py_int 10 b = Ok minor ->
  select h =
    Ok (if (euid h =? 0) && ((major >? 3) || ((major =? 3) && (minor >=? 2)))
        then linux_vm_Process else linux_Process).
Proof.
  intros Hsys Hkv Ha Hb. unfold select.
  rewrite Hsys, Hkv. cbn. rewrite Ha, Hb. cbn.
  destruct ((euid h =? 0) && _); reflexivity.
Qed.

Lemma version_test_spec (uid major minor : Z) :
  (uid =? 0) && ((major >? 3) || ((major =? 3) && (minor >=? 2))) = true <->
  uid = 0 /\ (major > 3 \/ (major = 3 /\ minor >= 2)).
Proof.
  rewrite andb_true_iff, orb_true_iff, andb_true_iff.
  rewrite !Z.eqb_eq, Z.gtb_ltb, Z.geb_leb, Z.ltb_lt, Z.leb_le. lia.
Qed.

(** C6: on Linux, for a release whose first two dot-separated fields read
    as the integers [major] and [minor], the vectorized-copy class is
    chosen exactly when the effective uid is 0 and the version is at least
    3.2, and the ptrace class in every other case; on a system that is
    neither Windows nor Linux the import raises [MemEditError].  [select]
    is a function of the host alone: the choice is computed once, when the
    package is imported. *)
Theorem C6_backend_selection (h : Host) :
  (forall a b rest major minor,
      system h = "Linux" ->
      split_on "."%char (release h) = a :: b :: rest ->
      py_int 10 a = Ok major ->
      py_int 10 b = Ok minor ->
      (select h = Ok linux_vm_Process <->
       euid h = 0 /\ (major > 3 \/ (major = 3 /\ minor >= 2))) /\
      (select h = Ok linux_Process <->
       ~ (euid h = 0 /\ (major > 3 \/ (major = 3 /\ minor >= 2))))) /\
  (system h <> "Windows" -> system h <> "Linux" ->
   select h =
     Raise (MemEditError "Only Linux and Windows are currently supported.")).
Proof.
  split.
  - intros a b rest major minor Hsys Hkv Ha Hb.
    rewrite (select_linux h a b rest major minor Hsys Hkv Ha Hb).
    rewrite <- (version_test_spec (euid h) major minor).
    destruct ((euid h =? 0) && _); split; split;
      intros Hx; try reflexivity; try discriminate;
      try (exfalso; apply Hx; reflexivity).
  - intros Hw Hl. unfold select.
    destruct (String.eqb_spec (system h) "Windows"); [contradiction|].
    destruct (String.eqb_spec (system h) "Linux"); [contradiction|].
    reflexivity.
Qed.

(** On the root host of the examples the vectorized-copy class is chosen. *)
Lemma C6_backend_selection_witness :
  select Examples.root_host = Ok linux_vm_Process.
Proof.
  apply (proj1 (proj1 (C6_backend_selection Examples.root_host)
                  "5" "15" ["0-91-generic"] 5 15
                  eq_refl eq_refl eq_refl eq_refl)).
  split; [reflexivity | left; lia].
Defined.

End Selection.

(* ===================================================================== *)
(** * get_path                                                            *)
(* ===================================================================== *)

Section GetPath.

Lemma get_path_missing_template {W} `{OS W} (w w' : W) :
  io_open "/proc/{}/cmdline" "rb" w = (Raise (OSError ENOENT), w') ->
  shared_get_path w = (Ok "", w').
Proof.
  intros Hopen.
  unfold shared_get_path, try_except, first_token_of, with_open, bind.
  rewrite Hopen. reflexivity.
Qed.

(** No process directory of procfs is called [{}]. *)
Lemma ref_template_absent (w : RefOS.world) :
  RefOS.open "/proc/{}/cmdline" "rb" w = (Raise (OSError ENOENT), w).
Proof. reflexivity. Qed.

(** C9: [get_path] opens the literal path ['/proc/{}/cmdline'] whatever
    the pid of the handle is.  In every world where that path does not
    exist it returns the empty string, on both backends; in the reference
    world the path never exists, so there [get_path] returns the empty
    string for every handle and changes nothing. *)
Theorem C9_get_path_is_empty :
  (forall W (O : OS W) (w w' : W)
          (self : Linux.Process) (self_vm : LinuxVm.Process),
      io_open "/proc/{}/cmdline" "rb" w = (Raise (OSError ENOENT), w') ->
      Linux.get_path self w = (Ok "", w') /\
      LinuxVm.get_path self_vm w = (Ok "", w')) /\
  (forall (w : RefOS.world)
          (self : Linux.Process) (self_vm : LinuxVm.Process),
      Linux.get_path self w = (Ok "", w) /\
      LinuxVm.get_path self_vm w = (Ok "", w)).
Proof.
  split.
  - intros W O w w' self self_vm Hopen.
    unfold Linux.get_path, LinuxVm.get_path.
    split; apply get_path_missing_template; exact Hopen.
  - intros w self self_vm.
    unfold Linux.get_path, LinuxVm.get_path.
    split; apply get_path_missing_template; apply ref_template_absent.
Qed.

(** The handle on the live pid 4242 gets the empty string too. *)
Lemma C9_get_path_is_empty_witness :
  Linux.get_path {| Linux.pid := Some 4242 |} Examples.w_plain
    = (Ok "", Examples.w_plain) /\
  LinuxVm.get_path {| LinuxVm.pid := Some 4242 |} Examples.w_plain
    = (Ok "", Examples.w_plain).
Proof.
  apply (proj1 C9_get_path_is_empty RefOS.world RefOS.ref_os
           Examples.w_plain Examples.w_plain).
  reflexivity.
Defined.

End GetPath.

(* ===================================================================== *)
(** * close                                                               *)
(* ===================================================================== *)

Section Close.

(** C1: when the target of a ptrace handle no longer exists, the first
    statement of [close], [os.kill(self.pid, SIGSTOP)], raises
    [ProcessLookupError] (errno ESRCH).  Only the [waitpid] that follows
    is guarded, so [close] raises and the pid of the handle stays set. *)
Theorem C1_close_raises_when_target_is_gone
    {W} `{OS W} (self : Linux.Process) (p : Z) (w w' : W) :
  Linux.pid self = Some p ->
  os_kill p SIGSTOP w = (Raise (OSError ESRCH), w') ->
  Linux.close self w = (Raise (OSError ESRCH), self, w') /\
  is_ProcessLookupError (OSError ESRCH) = true.
Proof.
  intros Hpid Hkill. split; [|reflexivity].
  unfold Linux.close, bind, py_kill. rewrite Hpid, Hkill. reflexivity.
Qed.

(** Pid 99 is not in the process table of the example world. *)
Lemma C1_close_raises_when_target_is_gone_witness :
  Linux.close {| Linux.pid := Some 99 |} Examples.w_plain
    = (Raise (OSError ESRCH), {| Linux.pid := Some 99 |}, Examples.w_plain)
  /\ is_ProcessLookupError (OSError ESRCH) = true.
Proof.
  apply (C1_close_raises_when_target_is_gone
           {| Linux.pid := Some 99 |} 99 Examples.w_plain Examples.w_plain).
  - reflexivity.
  - reflexivity.
Defined.

(** A successful [close] of a ptrace handle leaves [pid] at [None]. *)
Lemma close_ok_clears_pid {W} `{OS W} (self h1 : Linux.Process) (w w1 : W) :
  Linux.close self w = (Ok tt, h1, w1) -> h1 = {| Linux.pid := None |}.
Proof.
  unfold Linux.close. intros Hc.
  destruct (bind _ _ w) as [[u|e] w2]; inversion Hc; reflexivity.
Qed.

(** The claim C4 fails on the ptrace backend: the seized target 4242 is
    closed successfully, and the second [close] raises [TypeError]. *)
Lemma C4_second_close_raises :
  exists h1 w1,
    Linux.close {| Linux.pid := Some 4242 |} Examples.w_traced
      = (Ok tt, h1, w1) /\
    fst (fst (Linux.close h1 w1)) = Raise TypeError.
Proof.
  eexists. eexists. split.
  - vm_compute. reflexivity.
  - vm_compute. reflexivity.
Qed.

(** C4, amended: on the vectorized-copy backend [close] never raises, the
    second time no more than the first.  On the ptrace backend a second
    [close] after a successful one raises [TypeError], because
    [os.kill] is called with the [None] that the first [close] stored,
    and it changes neither the handle nor the world. *)
Theorem C4_second_close :
  (forall (self : LinuxVm.Process),
      fst (LinuxVm.close self) = Ok tt /\
      LinuxVm.close (snd (LinuxVm.close self))
        = (Ok tt, {| LinuxVm.pid := None |})) /\
  (forall W (O : OS W) (self h1 : Linux.Process) (w w1 : W),
      Linux.close self w = (Ok tt, h1, w1) ->
      Linux.close h1 w1 = (Raise TypeError, h1, w1)).
Proof.
  split.
  - intros self. split; reflexivity.
  - intros W O self h1 w w1 Hc.
    rewrite (close_ok_clears_pid self h1 w w1 Hc). reflexivity.
Qed.

Lemma C4_second_close_witness :
  exists h1 w1,
    Linux.close {| Linux.pid := Some 4242 |} Examples.w_traced
      = (Ok tt, h1, w1) /\
    Linux.close h1 w1 = (Raise TypeError, h1, w1).
Proof.
  eexists. eexists. split.
  - vm_compute. reflexivity.
  - eapply (proj2 C4_second_close RefOS.world RefOS.ref_os
              {| Linux.pid := Some 4242 |} _ Examples.w_traced).
    vm_compute. reflexivity.
Defined.

End Close.

(* ===================================================================== *)
(** * read_memory and write_memory: what the code does with the outcome   *)
(** * of the copy                                                         *)
(* ===================================================================== *)

Section Transfers.

(** A [with] block whose [open] and [close] succeed has the outcome of
    its body. *)
Lemma with_open_ok {W} `{OS W} {A} (path mode : string)
    (body : file -> M W A) (f : file) (r : result A) (w w1 w2 w3 : W) :
  io_open path mode w = (Ok f, w1) ->
  body f w1 = (r, w2) ->
  r <> Raise Hangs ->
  io_close f w2 = (Ok tt, w3) ->
  with_open path mode body w = (r, w3).
Proof.
  intros Hopen Hbody Hr Hclose.
  unfold with_open, bind, try_finally. rewrite Hopen, Hbody.
  destruct r as [a|e].
  - rewrite Hclose. reflexivity.
  - destruct e; try (rewrite Hclose; reflexivity). contradiction.
Qed.

Lemma vm_read_outcome {W} `{OS W} (self : LinuxVm.Process) (base : Z)
    (buffer : list byte) (w : W) :
  LinuxVm.read_memory self base buffer w =
    let '((r, e, data), w') :=
      libc_process_vm_readv (LinuxVm.pid_argument (LinuxVm.pid self)) base
                            (Z.of_nat (length buffer)) w in
    if r =? -1 then (Raise (OSError e), w')
    else (Ok (store_prefix buffer data), w').
Proof.
  unfold LinuxVm.read_memory, LinuxVm.read_process_memory.
  destruct (libc_process_vm_readv _ _ _ _) as [[[r e] data] w'].
  unfold LinuxVm._error_checker. destruct (r =? -1); reflexivity.
Qed.

Lemma vm_write_outcome {W} `{OS W} (self : LinuxVm.Process) (base : Z)
    (buffer : list byte) (w : W) :
  LinuxVm.write_memory self base buffer w =
    let '((r, e), w') :=
      libc_process_vm_writev (LinuxVm.pid_argument (LinuxVm.pid self)) base
                             buffer w in
    if r =? -1 then (Raise (OSError e), w') else (Ok tt, w').
Proof.
  unfold LinuxVm.write_memory, LinuxVm.write_process_memory, bind.
  destruct (libc_process_vm_writev _ _ _ _) as [[r e] w'].
  unfold LinuxVm._error_checker. destruct (r =? -1); reflexivity.
Qed.

Lemma ptrace_read_outcome {W} `{OS W} (self : Linux.Process) (base : Z)
    (buffer : list byte) (f : file) (pos : Z)
    (got : result (list byte)) (w w1 w2 w3 w4 : W) :
  io_open (Linux.mem_path self) "rb+" w = (Ok f, w1) ->
  io_seek f base w1 = (Ok pos, w2) ->
  io_readinto f (Z.of_nat (length buffer)) w2 = (got, w3) ->
  got <> Raise Hangs ->
  io_close f w3 = (Ok tt, w4) ->
  Linux.read_memory self base buffer w =
    match got with
    | Raise e => (Raise e, w4)
    | Ok data => (Ok (store_prefix buffer data), w4)
    end.
Proof.
  intros Hopen Hseek Hread Hgot Hclose. unfold Linux.read_memory.
  destruct got as [data|e];
    (eapply with_open_ok with (w2 := w3);
     [exact Hopen | | | exact Hclose]);
    try discriminate; try exact Hgot;
    unfold bind, ret; rewrite Hseek, Hread; reflexivity.
Qed.

Lemma ptrace_write_outcome {W} `{OS W} (self : Linux.Process) (base : Z)
    (buffer : list byte) (f : file) (pos : Z)
    (put : result Z) (w w1 w2 w3 w4 : W) :
  io_open (Linux.mem_path self) "rb+" w = (Ok f, w1) ->
  io_seek f base w1 = (Ok pos, w2) ->
  io_write f buffer w2 = (put, w3) ->
  put <> Raise Hangs ->
  io_close f w3 = (Ok tt, w4) ->
  Linux.write_memory self base buffer w =
    match put with
    | Raise e => (Raise e, w4)
    | Ok count => (Ok tt, w4)
    end.
Proof.
  intros Hopen Hseek Hwrite Hput Hclose. unfold Linux.write_memory.
  destruct put as [count|e];
    (eapply with_open_ok with (w2 := w3);
     [exact Hopen | | | exact Hclose]);
    try discriminate; try (intros Heq; apply Hput; congruence);
    unfold bind, ret; rewrite Hseek, Hwrite; reflexivity.
Qed.




End Transfers.

(* ===================================================================== *)
(** * get_pid_by_name                                                     *)
(* ===================================================================== *)

Section Discovery.
Context {W : Type} `{OS W}.

Lemma find_pid_step (name : string) (p : Z) (rest : list Z) (w : W) :
  find_pid name (p :: rest) w =
    match first_token_of (cmdline_file p) w with
    | (Raise e, w') =>
        if is_FileNotFoundError e then find_pid name rest w'
        else (Raise e, w')
    | (Ok path, w') =>
        if String.eqb (basename path) name then (Ok (Some p), w')
        else find_pid name rest w'
    end.
Proof. reflexivity. Qed.

(** The loop goes through the pids it passes over. *)
Lemma find_pid_passes (name : string) (before l : list Z) (w w1 : W) :
  passes_over name before w w1 ->
  find_pid name (before ++ l)%list w = find_pid name l w1.
Proof.
  induction 1 as [w | p rest e w w1 w2 Hread Hgone _ IH
                    | p rest path w w1 w2 Hread Hother _ IH].
  - reflexivity.
  - rewrite <- app_comm_cons, find_pid_step, Hread, Hgone. exact IH.
  - rewrite <- app_comm_cons, find_pid_step, Hread.
    destruct (String.eqb_spec (basename path) name); [contradiction|].
    exact IH.
Qed.

(** Every outcome of the loop, read off its first stop. *)
Lemma find_pid_outcome (name : string) (pids : list Z) :
  forall (w w' : W) (r : result (option Z)),
    find_pid name pids w = (r, w') ->
    (r = Ok None /\ passes_over name pids w w') \/
    (exists before p after w1 path,
        pids = (before ++ p :: after)%list /\
        passes_over name before w w1 /\
        ((r = Ok (Some p) /\
          first_token_of (cmdline_file p) w1 = (Ok path, w') /\
          basename path = name) \/
         (exists e, r = Raise e /\
          first_token_of (cmdline_file p) w1 = (Raise e, w') /\
          is_FileNotFoundError e = false))).
Proof.
  induction pids as [|q rest IH]; intros w w' r Hrun.
  - inversion Hrun; subst. left. split; [reflexivity | constructor].
  - rewrite find_pid_step in Hrun.
    destruct (first_token_of (cmdline_file q) w) as [[path|e] w1] eqn:Hread.
    + destruct (String.eqb_spec (basename path) name) as [Hname|Hname].
      * inversion Hrun; subst. right.
        exists [], q, rest, w, path.
        split; [reflexivity|]. split; [constructor|]. left. auto.
      * destruct (IH _ _ _ Hrun)
          as [[-> Hp] | (before & p & after & w2 & path' & -> & Hp & Hstop)].
        -- left. split; [reflexivity|].
           eapply passes_other; eauto.
        -- right. exists (q :: before), p, after, w2, path'.
           split; [reflexivity|]. split; [|exact Hstop].
           eapply passes_other; eauto.
    + destruct (is_FileNotFoundError e) eqn:Hgone.
      * destruct (IH _ _ _ Hrun)
          as [[-> Hp] | (before & p & after & w2 & path' & -> & Hp & Hstop)].
        -- left. split; [reflexivity|].
           eapply passes_gone; eauto.
        -- right. exists (q :: before), p, after, w2, path'.
           split; [reflexivity|]. split; [|exact Hstop].
           eapply passes_gone; eauto.
      * inversion Hrun; subst. right.
        exists [], q, rest, w, "".
        split; [reflexivity|]. split; [constructor|]. right.
        exists e. auto.
Qed.

Lemma get_pid_by_name_loop (name : string) (entries : list string)
    (pids : list Z) (w w0 : W) :
  os_listdir "/proc" w = (Ok entries, w0) ->
  ints_of_entries entries = Ok pids ->
  shared_get_pid_by_name name w = find_pid name pids w0.
Proof.
  intros Hls Hints.
  unfold shared_get_pid_by_name, shared_list_available_pids, bind, lift.
  rewrite Hls, Hints. reflexivity.
Qed.

End Discovery.

(** The claim C5 fails: pid 1, listed first, belongs to another user.
    Opening its command line raises [PermissionError], and
    [get_pid_by_name] raises it instead of going on to pid 4242, which
    runs [/usr/bin/target]. *)
Lemma C5_permission_denied_is_raised :
  fst (RefOS.open (cmdline_file 1) "rb" Examples.w_foreign)
    = Raise (OSError EPERM) /\
  is_PermissionError (OSError EPERM) = true /\
  fst (first_token_of (cmdline_file 4242) Examples.w_foreign)
    = Ok "/usr/bin/target" /\
  fst (Linux.get_pid_by_name "target" Examples.w_foreign)
    = Raise (OSError EPERM) /\
  fst (LinuxVm.get_pid_by_name "target" Examples.w_foreign)
    = Raise (OSError EPERM).
Proof. vm_compute. repeat split; reflexivity. Qed.

(** C5, amended: let [pids] be the entries of /proc that [int()] accepts,
    in listing order.  [get_pid_by_name name] returns a pid exactly when
    that pid is the first of [pids] whose command line can be read and
    whose first null-delimited token has base name [name], every pid
    before it having been passed over (its command line raised
    [FileNotFoundError], or its name differs); it returns [None] exactly
    when every pid is passed over; and it raises exactly when, before any
    match, reading a command line raises something other than
    [FileNotFoundError] (a refused permission, for one), and it raises
    that exception.  The same holds on both backends. *)
Theorem C5_get_pid_by_name {W} `{OS W} (name : string)
    (entries : list string) (pids : list Z) (w w0 w' : W) :
  os_listdir "/proc" w = (Ok entries, w0) ->
  ints_of_entries entries = Ok pids ->
  Linux.get_pid_by_name name w = LinuxVm.get_pid_by_name name w /\
  (forall p,
      Linux.get_pid_by_name name w = (Ok (Some p), w') <->
      exists before after w1 path,
        pids = (before ++ p :: after)%list /\
        passes_over name before w0 w1 /\
        first_token_of (cmdline_file p) w1 = (Ok path, w') /\
        basename path = name) /\
  (Linux.get_pid_by_name name w = (Ok None, w') <->
   passes_over name pids w0 w') /\
  (forall e,
      Linux.get_pid_by_name name w = (Raise e, w') <->
      exists before p after w1,
        pids = (before ++ p :: after)%list /\
        passes_over name before w0 w1 /\
        first_token_of (cmdline_file p) w1 = (Raise e, w') /\
        is_FileNotFoundError e = false).
Proof.
  intros Hls Hints.
  unfold Linux.get_pid_by_name, LinuxVm.get_pid_by_name.
  rewrite (get_pid_by_name_loop name entries pids w w0 Hls Hints).
  split; [reflexivity|]. split; [|split].
  - intros p. split.
    + intros Hrun.
      destruct (find_pid_outcome name pids _ _ _ Hrun)
        as [[Hr _] | (before & q & after & w1 & path & -> & Hp & Hstop)];
        [discriminate|].
      destruct Hstop as [(Hr & Hread & Hname) | (e & Hr & _)];
        [|discriminate].
      inversion Hr; subst q. exists before, after, w1, path. auto.
    + intros (before & after & w1 & path & -> & Hp & Hread & Hname).
      rewrite (find_pid_passes name before (p :: after) w0 w1 Hp).
      rewrite find_pid_step, Hread.
      destruct (String.eqb_spec (basename path) name); [reflexivity|].
      contradiction.
  - split.
    + intros Hrun.
      destruct (find_pid_outcome name pids _ _ _ Hrun)
        as [[_ Hp] | (before & q & after & w1 & path & -> & Hp & Hstop)];
        [exact Hp|].
      destruct Hstop as [(Hr & _) | (e & Hr & _)]; discriminate.
    + intros Hp.
      rewrite <- (app_nil_r pids).
      rewrite (find_pid_passes name pids [] w0 w' Hp). reflexivity.
  - intros e. split.
    + intros Hrun.
      destruct (find_pid_outcome name pids _ _ _ Hrun)
        as [[Hr _] | (before & q & after & w1 & path & -> & Hp & Hstop)];
        [discriminate|].
      destruct Hstop as [(Hr & _) | (e' & Hr & Hread & Hgone)];
        [discriminate|].
      inversion Hr; subst e'. exists before, q, after, w1. auto.
    + intros (before & p & after & w1 & -> & Hp & Hread & Hgone).
      rewrite (find_pid_passes name before (p :: after) w0 w1 Hp).
      rewrite find_pid_step, Hread, Hgone. reflexivity.
Qed.

(** In the example world pid 99 is listed but gone, and pid 4242 runs
    [/usr/bin/target]: the search passes over 99 and returns 4242. *)
Lemma C5_get_pid_by_name_witness :
  exists w',
    Linux.get_pid_by_name "target" Examples.w_plain = (Ok (Some 4242), w').
Proof.
  eexists.
  apply (proj2 (proj1 (proj2 (@C5_get_pid_by_name RefOS.world RefOS.ref_os
                  "target" ["self"; "99"; "4242"; "cpuinfo"] [99; 4242]
                  Examples.w_plain Examples.w_plain _ eq_refl eq_refl))
                4242)).
  exists [99], [], Examples.w_plain, "/usr/bin/target".
  split; [reflexivity|]. split; [|split].
  - eapply passes_gone; [vm_compute; reflexivity | reflexivity |].
    apply passes_none.
  - vm_compute. reflexivity.
  - reflexivity.
Defined.

(* ===================================================================== *)
(** * list_mapped_regions                                                 *)
(* ===================================================================== *)

Section Regions.

Lemma any_r_true {A} (f : A -> result bool) (l : list A) :
  any_r f l = Ok true -> exists x, In x l /\ f x = Ok true.
Proof.
  induction l as [|a l IH]; cbn; [discriminate|].
  destruct (f a) as [[|]|e] eqn:Hfa; try discriminate.
  - intros _. exists a. auto.
  - intros Hl. destruct (IH Hl) as (x & Hx & Hfx). exists x. auto.
Qed.

Lemma any_r_false {A} (f : A -> result bool) (l : list A) :
  any_r f l = Ok false -> forall x, In x l -> f x = Ok false.
Proof.
  induction l as [|a l IH]; cbn; [intros _ x []|].
  destruct (f a) as [[|]|e] eqn:Hfa; try discriminate.
  intros Hl x [<-|Hx]; auto.
Qed.

(** The regions a loop collects each come from one of its lines. *)
Lemma collect_regions_In (step : string -> result (option (Z * Z)))
    (lines : list string) :
  forall regions, collect_regions step lines = Ok regions ->
  forall r, In r regions ->
  exists line, In line lines /\ step line = Ok (Some r).
Proof.
  induction lines as [|line rest IH]; cbn; intros regions Hc r Hr.
  - inversion Hc; subst. destruct Hr.
  - destruct (step line) as [[r0|]|e] eqn:Hstep; try discriminate.
    + destruct (collect_regions step rest) as [rs|e]; [|discriminate].
      inversion Hc; subst regions. destruct Hr as [<-|Hr].
      * exists line. auto.
      * destruct (IH rs eq_refl r Hr) as (l & Hl & Hs). exists l. auto.
    + destruct (IH regions Hc r Hr) as (l & Hl & Hs). exists l. auto.
Qed.

(** A scan that returns has read the file to its end. *)
Lemma scanned_file {W} `{OS W} (path : string)
    (step : string -> result (option (Z * Z)))
    (w w' : W) (regions : list (Z * Z)) :
  with_open path "r" (scan_maps step) w = (Ok regions, w') ->
  exists lines, maps_read path w lines /\
                collect_regions step lines = Ok regions.
Proof.
  unfold with_open, bind, try_finally, scan_maps, maps_read. intros Hrun.
  destruct (io_open path "r" w) as [[f|e] w1] eqn:Hopen; [|discriminate].
  destruct (io_lines f w1) as [[lines stopped] w2] eqn:Hlines.
  exists lines.
  destruct (collect_regions step lines) as [rs|e] eqn:Hc.
  - destruct stopped as [e|].
    + destruct e; destruct (io_close f w2) as [[u|e'] w3]; discriminate.
    + destruct (io_close f w2) as [[u|e'] w3]; [|discriminate].
      inversion Hrun; subst. split; [|reflexivity].
      exists f, w1, w2. auto.
  - destruct e; destruct (io_close f w2) as [[u|e'] w3]; discriminate.
Qed.

(** The first two fields of [whole] are those of the line whenever the
    second one is not empty. *)
Lemma fields_head (line bounds privileges : string) :
  unpack2 (Linux.fields line) = Ok (bounds, privileges) ->
  privileges <> "" ->
  nth_error (split_ws line) 0 = Some bounds /\
  nth_error (split_ws line) 1 = Some privileges.
Proof.
  unfold Linux.fields.
  destruct (split_ws line) as [|a [|b [|c [|d [|e [|f [|g l]]]]]]];
    cbn; intros Hu Hne; inversion Hu; subst; auto; contradiction.
Qed.

(** What holds of a line for which the loop body of linux.py reaches
    [regions.append]. *)
Lemma linux_line_kept `{Patterns} (cls : Linux.ProcessClass)
    (writeable_only : bool) (include_paths : list string)
    (line : string) (r : Z * Z) :
  Linux.region_of_line cls writeable_only include_paths line = Ok (Some r) ->
  (exists bounds privileges,
      unpack2 (Linux.fields line) = Ok (bounds, privileges) /\
      parse_bounds bounds = Ok r /\
      str_in "r" privileges = true /\
      (writeable_only = true -> str_in "w" privileges = true)) /\
  (include_paths <> [] ->
   exists path, Linux.item5 (Linux.fields line) = Ok path /\
                path_included include_paths path) /\
  (forall x, In x (Linux.blacklist cls) ->
   exists path, Linux.item5 (Linux.fields line) = Ok path /\
                fnmatch path x = false).
Proof.
  unfold Linux.region_of_line. intros Hl.
  destruct (str_in "/dev/dri/" line); [discriminate|].
  destruct (str_in "Proton" line); [discriminate|].
  cbv zeta in Hl.
  match type of Hl with rbind ?t _ = _ => destruct t as [inc|e] eqn:Hinc end;
    [|discriminate].
  cbn [rbind] in Hl. destruct inc; cbn [negb] in Hl; [|discriminate].
  match type of Hl with rbind ?t _ = _ => destruct t as [exc|e] eqn:Hexc end;
    [|discriminate].
  cbn [rbind] in Hl. destruct exc; [discriminate|].
  destruct (unpack2 (Linux.fields line)) as [[bounds privileges]|e] eqn:Hu;
    [|discriminate].
  cbn [rbind] in Hl.
  destruct (str_in "r" privileges) eqn:Hr; cbn [negb] in Hl; [|discriminate].
  split; [|split].
  - exists bounds, privileges. split; [reflexivity|].
    destruct writeable_only; cbn [andb] in Hl.
    + destruct (str_in "w" privileges); cbn [negb] in Hl; [|discriminate].
      destruct (parse_bounds bounds) as [r'|e]; [|discriminate].
      inversion Hl; subst. auto.
    + destruct (parse_bounds bounds) as [r'|e]; [|discriminate].
      inversion Hl; subst. repeat split; auto. discriminate.
  - intros Hne. destruct include_paths as [|x0 xs]; [contradiction|].
    match type of Hinc with rbind ?t _ = _ =>
      destruct t as [[|]|e] eqn:Hre end; try discriminate.
    + apply any_r_true in Hre. destruct Hre as (x & Hx & Hm).
      destruct (Linux.item5 (Linux.fields line)) as [path|e];
        [|discriminate].
      exists path. split; [reflexivity|]. exists x. auto.
    + cbn [rbind] in Hinc. apply any_r_true in Hinc.
      destruct Hinc as (x & Hx & Hm).
      destruct (Linux.item5 (Linux.fields line)) as [path|e];
        [|discriminate].
      exists path. split; [reflexivity|]. exists x. auto.
  - intros x Hx. destruct (Linux.blacklist cls) as [|x0 xs]; [destruct Hx|].
    pose proof (any_r_false _ _ Hexc x Hx) as Hm.
    destruct (Linux.item5 (Linux.fields line)) as [path|e];
      [|discriminate].
    exists path. split; [reflexivity|]. cbn in Hm. congruence.
Qed.

(** What holds of a line for which the loop body of linux_vm.py reaches
    [regions.append]. *)
Lemma vm_line_kept (writeable_only : bool) (include_paths : list string)
    (line : string) (r : Z * Z) :
  LinuxVm.region_of_line writeable_only include_paths line = Ok (Some r) ->
  exists bounds privileges,
    unpack2 (split_ws line) = Ok (bounds, privileges) /\
    parse_bounds bounds = Ok r /\
    str_in "r" privileges = true /\
    (writeable_only = true -> str_in "w" privileges = true).
Proof.
  unfold LinuxVm.region_of_line. intros Hl.
  destruct (str_in "/dev/dri/" line); [discriminate|].
  destruct (str_in "Proton" line); [discriminate|].
  destruct (unpack2 (split_ws line)) as [[bounds privileges]|e] eqn:Hu;
    [|discriminate].
  cbn [rbind] in Hl.
  destruct (str_in "r" privileges) eqn:Hr; cbn [negb] in Hl; [|discriminate].
  exists bounds, privileges. split; [reflexivity|].
  destruct writeable_only; cbn [andb] in Hl.
  - destruct (str_in "w" privileges); cbn [negb] in Hl; [|discriminate].
    destruct (parse_bounds bounds) as [r'|e]; [|discriminate].
    inversion Hl; subst. auto.
  - destruct (parse_bounds bounds) as [r'|e]; [|discriminate].
    inversion Hl; subst. repeat split; auto. discriminate.
Qed.

Lemma unpack2_nth (l : list string) (a b : string) :
  unpack2 l = Ok (a, b) ->
  nth_error l 0 = Some a /\ nth_error l 1 = Some b.
Proof.
  unfold unpack2. destruct l as [|x [|y l]]; cbn; intros Hu;
    inversion Hu; subst; auto.
Qed.

Lemma readable_not_empty (privileges : string) :
  str_in "r" privileges = true -> privileges <> "".
Proof. intros Hr ->. discriminate. Qed.

End Regions.

Section RegionClaims.
Context {W : Type} `{OS W} `{Patterns}.

Lemma linux_regions_from_lines (cls : Linux.ProcessClass)
    (self : Linux.Process) (writeable_only : bool)
    (include_paths : list string) (w w' : W) (regions : list (Z * Z)) :
  Linux.list_mapped_regions cls self writeable_only include_paths w
    = (Ok regions, w') ->
  exists lines,
    maps_read (maps_file (Linux.pid self)) w lines /\
    forall r, In r regions ->
    exists line,
      In line lines /\
      Linux.region_of_line cls writeable_only include_paths line
        = Ok (Some r).
Proof.
  unfold Linux.list_mapped_regions. intros Hrun.
  destruct (scanned_file _ _ _ _ _ Hrun) as (lines & Hread & Hc).
  exists lines. split; [exact Hread|].
  intros r Hr. exact (collect_regions_In _ _ _ Hc r Hr).
Qed.

Lemma vm_regions_from_lines (self : LinuxVm.Process)
    (writeable_only : bool) (include_paths : list string) (w w' : W)
    (regions : list (Z * Z)) :
  LinuxVm.list_mapped_regions self writeable_only include_paths w
    = (Ok regions, w') ->
  exists lines,
    maps_read (maps_file (LinuxVm.pid self)) w lines /\
    forall r, In r regions ->
    exists line,
      In line lines /\
      LinuxVm.region_of_line writeable_only include_paths line
        = Ok (Some r).
Proof.
  unfold LinuxVm.list_mapped_regions. intros Hrun.
  destruct (scanned_file _ _ _ _ _ Hrun) as (lines & Hread & Hc).
  exists lines. split; [exact Hread|].
  intros r Hr. exact (collect_regions_In _ _ _ Hc r Hr).
Qed.

(** On the ptrace backend the inclusion filter does what C3 says: with a
    non-empty [include_paths], every returned region comes from a line
    whose path matches one of the patterns or its escaped form. *)
Lemma linux_include_paths_respected (cls : Linux.ProcessClass)
    (self : Linux.Process) (writeable_only : bool)
    (include_paths : list string) (w w' : W) (regions : list (Z * Z)) :
  include_paths <> [] ->
  Linux.list_mapped_regions cls self writeable_only include_paths w
    = (Ok regions, w') ->
  exists lines,
    maps_read (maps_file (Linux.pid self)) w lines /\
    forall r, In r regions ->
    exists line path,
      In line lines /\
      Linux.region_of_line cls writeable_only include_paths line
        = Ok (Some r) /\
      Linux.item5 (Linux.fields line) = Ok path /\
      path_included include_paths path.
Proof.
  intros Hne Hrun.
  destruct (linux_regions_from_lines _ _ _ _ _ _ _ Hrun)
    as (lines & Hread & Hfrom).
  exists lines. split; [exact Hread|].
  intros r Hr. destruct (Hfrom r Hr) as (line & Hline & Hkept).
  destruct (linux_line_kept _ _ _ _ _ Hkept) as (_ & Hinc & _).
  destruct (Hinc Hne) as (path & Hpath & Hin).
  exists line, path. auto.
Qed.

(** C7: on both backends, every region [list_mapped_regions] returns is
    the address range of a line of the maps file whose permission field
    contains ['r'], and also ['w'] when [writeable_only] is set. *)
Theorem C7_returned_regions_are_readable :
  (forall (cls : Linux.ProcessClass) (self : Linux.Process)
          (writeable_only : bool) (include_paths : list string)
          (w w' : W) (regions : list (Z * Z)),
      Linux.list_mapped_regions cls self writeable_only include_paths w
        = (Ok regions, w') ->
      exists lines,
        maps_read (maps_file (Linux.pid self)) w lines /\
        forall r, In r regions -> from_line writeable_only lines r) /\
  (forall (self : LinuxVm.Process)
          (writeable_only : bool) (include_paths : list string)
          (w w' : W) (regions : list (Z * Z)),
      LinuxVm.list_mapped_regions self writeable_only include_paths w
        = (Ok regions, w') ->
      exists lines,
        maps_read (maps_file (LinuxVm.pid self)) w lines /\
        forall r, In r regions -> from_line writeable_only lines r).
Proof.
  split.
  - intros cls self wo inc w w' regions Hrun.
    destruct (linux_regions_from_lines _ _ _ _ _ _ _ Hrun)
      as (lines & Hread & Hfrom).
    exists lines. split; [exact Hread|].
    intros r Hr. destruct (Hfrom r Hr) as (line & Hline & Hkept).
    destruct (linux_line_kept _ _ _ _ _ Hkept)
      as ((bounds & privileges & Hu & Hb & Hrd & Hwr) & _ & _).
    destruct (fields_head _ _ _ Hu (readable_not_empty _ Hrd)) as [Hf0 Hf1].
    exists line, bounds, privileges. auto 7.
  - intros self wo inc w w' regions Hrun.
    destruct (vm_regions_from_lines _ _ _ _ _ _ Hrun)
      as (lines & Hread & Hfrom).
    exists lines. split; [exact Hread|].
    intros r Hr. destruct (Hfrom r Hr) as (line & Hline & Hkept).
    destruct (vm_line_kept _ _ _ _ Hkept)
      as (bounds & privileges & Hu & Hb & Hrd & Hwr).
    destruct (unpack2_nth _ _ _ Hu) as [Hf0 Hf1].
    exists line, bounds, privileges. auto 7.
Qed.


End RegionClaims.

(** With [writeable_only] set, the target's two writable mappings that are
    not under /dev/dri are returned. *)
Lemma C7_returned_regions_are_readable_witness :
  exists lines,
    maps_read (maps_file (Some 4242)) Examples.w_plain lines /\
    forall r, In r [(4096, 8192); (139637976727552, 139637976731648)] ->
              from_line true lines r.
Proof.
  eapply (proj1 (@C7_returned_regions_are_readable RefOS.world RefOS.ref_os
                   RefPatterns.ref_patterns)
            Linux.class_body {| Linux.pid := Some 4242 |} true []
            Examples.w_plain).
  vm_compute. reflexivity.
Defined.


(** C3: the vectorized-copy backend accepts [include_paths] and never
    reads it: the result is the same as with no pattern at all.  On the
    example target, asking for paths under [/lib] still returns the
    mapping of [/bin/true], which neither [/lib] nor its escaped form
    matches. *)
Theorem C3_vm_ignores_include_paths :
  (forall W (O : OS W) (self : LinuxVm.Process) (writeable_only : bool)
          (include_paths : list string) (w : W),
      LinuxVm.list_mapped_regions self writeable_only include_paths w
      = LinuxVm.list_mapped_regions self writeable_only [] w) /\
  fst (LinuxVm.list_mapped_regions {| LinuxVm.pid := Some 4242 |} false
         ["/lib"] Examples.w_plain)
    = Ok [(4194304, 4198400); (4096, 8192);
          (139637976727552, 139637976731648)] /\
  Linux.region_of_line Linux.class_body false []
    (nth 0 Examples.target_maps "") = Ok (Some (4194304, 4198400)) /\
  Linux.item5 (Linux.fields (nth 0 Examples.target_maps ""))
    = Ok "/bin/true" /\
  RefPatterns.re_match "/lib" "/bin/true" = Ok false /\
  RefPatterns.re_match (re_escape "/lib") "/bin/true" = Ok false /\
  fst (Linux.list_mapped_regions Linux.class_body
         {| Linux.pid := Some 4242 |} false ["/lib"] Examples.w_plain)
    = Ok [].
Proof.
  split; [reflexivity|]. vm_compute. repeat split; reflexivity.
Qed.

(* ===================================================================== *)
(** * Write, then read: the reference world                               *)
(* ===================================================================== *)

Section RoundTrip.
Import RefOS.

(** ** Memory *)

Lemma store_count (rs : list region) (bs : list byte) :
  forall (m : gmap Z byte) (a : Z),
    (forall x, a <= x < a + Z.of_nat (length bs) -> can_write rs x = true) ->
    fst (store rs m a bs) = length bs.
Proof.
  induction bs as [|b bs IH]; intros m a Hw; [reflexivity|].
  cbn [store]. rewrite (Hw a) by (cbn [length]; lia).
  specialize (IH (<[a:=b]> m) (a + 1)).
  destruct (store rs (<[a:=b]> m) (a + 1) bs) as [n m'].
  cbn [fst] in *. rewrite IH; [reflexivity|].
  intros x Hx. apply Hw. cbn [length]. lia.
Qed.

Lemma store_below (rs : list region) (bs : list byte) :
  forall (m : gmap Z byte) (a a' : Z),
    a' < a -> snd (store rs m a bs) !! a' = m !! a'.
Proof.
  induction bs as [|b bs IH]; intros m a a' Hlt; [reflexivity|].
  cbn [store]. destruct (can_write rs a); [|reflexivity].
  specialize (IH (<[a:=b]> m) (a + 1) a').
  destruct (store rs (<[a:=b]> m) (a + 1) bs) as [n m'].
  cbn [snd] in *. rewrite IH by lia.
  apply lookup_insert_ne. lia.
Qed.

(** What was stored in a range that can be written and read is what a
    load of that range returns. *)
Lemma load_store (rs : list region) (bs : list byte) :
  forall (m : gmap Z byte) (a : Z),
    (forall x, a <= x < a + Z.of_nat (length bs) ->
               can_read rs x = true /\ can_write rs x = true) ->
    load rs (snd (store rs m a bs)) a (length bs) = bs.
Proof.
  induction bs as [|b bs IH]; intros m a Hrw; [reflexivity|].
  cbn [store length load].
  destruct (Hrw a) as [Hr Hw]; [cbn [length]; lia|]. rewrite Hw.
  pose proof (store_below rs bs (<[a:=b]> m) (a + 1) a) as Hkeep.
  specialize (IH (<[a:=b]> m) (a + 1)).
  destruct (store rs (<[a:=b]> m) (a + 1) bs) as [n m'].
  cbn [snd] in *. rewrite Hr. f_equal.
  - unfold byte_at. rewrite Hkeep by lia.
    rewrite lookup_insert_eq. reflexivity.
  - apply IH. intros x Hx. apply Hrw. cbn [length]. lia.
Qed.

Lemma store_prefix_full (buffer data : list byte) :
  length data = length buffer -> store_prefix buffer data = data.
Proof.
  intros Hlen. unfold store_prefix.
  rewrite firstn_all2 by lia. rewrite skipn_all2 by lia.
  apply app_nil_r.
Qed.

(** ** The vectorized-copy backend *)

Lemma vm_write_full (w : world) (p : Z) (pr : proc) (base : Z)
    (buf : list byte) :
  procs w !! p = Some pr ->
  p_foreign pr = false ->
  (forall x, base <= x < base + Z.of_nat (length buf) ->
             can_write (p_regions pr) x = true) ->
  exists w',
    LinuxVm.write_memory {| LinuxVm.pid := Some p |} base buf w
      = (Ok tt, w') /\
    procs w' !! p =
      Some (with_bytes pr
              (snd (store (p_regions pr) (p_bytes pr) base buf))).
Proof.
  intros Hp Hf Hw. rewrite vm_write_outcome.
  cbn [LinuxVm.pid LinuxVm.pid_argument libc_process_vm_writev ref_os].
  unfold process_vm_writev. rewrite Hp, Hf.
  pose proof (store_count (p_regions pr) buf (p_bytes pr) base Hw) as Hn.
  destruct (store (p_regions pr) (p_bytes pr) base buf) as [n m'].
  cbn [fst snd] in *. subst n.
  destruct buf as [|b buf].
  - cbn. eexists. split; [reflexivity|]. cbn. apply lookup_insert_eq.
  - cbn [length]. cbn [Nat.ltb Nat.leb Nat.eqb andb].
    destruct (Z.eqb_spec (Z.of_nat (S (length buf))) (-1)); [lia|].
    eexists. split; [reflexivity|]. cbn. apply lookup_insert_eq.
Qed.

Lemma vm_read_full (w : world) (p : Z) (pr : proc) (base : Z)
    (scratch : list byte) :
  procs w !! p = Some pr ->
  p_foreign pr = false ->
  length (load (p_regions pr) (p_bytes pr) base (length scratch))
    = length scratch ->
  LinuxVm.read_memory {| LinuxVm.pid := Some p |} base scratch w
    = (Ok (load (p_regions pr) (p_bytes pr) base (length scratch)), w).
Proof.
  intros Hp Hf Hlen. rewrite vm_read_outcome.
  cbn [LinuxVm.pid LinuxVm.pid_argument libc_process_vm_readv ref_os].
  unfold process_vm_readv. rewrite Hp, Hf, Nat2Z.id, Hlen.
  destruct scratch as [|b scratch].
  - reflexivity.
  - cbn [length]. cbn [Nat.eqb andb].
    rewrite andb_false_r.
    destruct (Z.eqb_spec (Z.of_nat (S (length scratch))) (-1)); [lia|].
    rewrite store_prefix_full by exact Hlen. reflexivity.
Qed.

(** ** The ptrace backend: resolving /proc/pid/mem *)

Lemma chars_app (a b : string) : chars (a ++ b) = (chars a ++ chars b)%list.
Proof.
  unfold chars. induction a as [|c a IH]; simpl; [reflexivity|].
  rewrite IH. reflexivity.
Qed.

Lemma split_on_go_plain (sep : ascii) (s : list ascii) :
  Forall (fun c => c <> sep) s ->
  forall cur l,
    split_on_go sep cur (s ++ l)%list = split_on_go sep (rev s ++ cur)%list l.
Proof.
  induction 1 as [|c s Hc _ IH]; intros cur l; [reflexivity|].
  cbn. destruct (Ascii.eqb_spec c sep); [contradiction|].
  rewrite IH, <- app_assoc. reflexivity.
Qed.

Lemma digits_no_slash (d : Decimal.uint) :
  Forall (fun c => c <> "/"%char) (chars (NilEmpty.string_of_uint d)).
Proof. induction d; cbn; constructor; (discriminate || assumption). Qed.

Lemma str_of_Z_no_slash (p : Z) :
  0 <= p -> Forall (fun c => c <> "/"%char) (chars (str_of_Z p)).
Proof.
  intros Hp. unfold str_of_Z. destruct p as [|q|q]; [| |lia].
  - repeat constructor; discriminate.
  - cbn [Z.to_int NilZero.string_of_int]. unfold NilZero.string_of_uint.
    destruct (Pos.to_uint q) eqn:Hq;
      try (rewrite <- Hq; apply digits_no_slash).
    repeat constructor; discriminate.
Qed.

Lemma pid_of_name_str (p : Z) : 0 <= p -> pid_of_name (str_of_Z p) = Some p.
Proof.
  intros Hp. unfold pid_of_name, str_of_Z.
  rewrite NilZero.isi.
  - cbv zeta. rewrite DecimalZ.of_to.
    destruct (Z.leb_spec 0 p); [|lia].
    rewrite String.eqb_refl. reflexivity.
  - destruct p; cbn; try discriminate.
    intros [= E]. exact (Unsigned.to_uint_nonnil _ E).
  - destruct p; cbn; try discriminate. lia.
Qed.

Lemma mem_path_resolves (p : Z) :
  0 <= p ->
  proc_path (Linux.mem_path {| Linux.pid := Some p |})
    = Some (str_of_Z p, "mem").
Proof.
  intros Hp. unfold proc_path, split_on, Linux.mem_path.
  cbn [Linux.pid format_opt_int].
  rewrite !chars_app.
  change (chars "/proc/") with ["/"; "p"; "r"; "o"; "c"; "/"]%char.
  change (chars "/mem") with ["/"; "m"; "e"; "m"]%char.
  cbn [app split_on_go Ascii.eqb Bool.eqb rev str string_of_list_ascii].
  rewrite (split_on_go_plain _ _ (str_of_Z_no_slash p Hp)).
  cbn [app split_on_go Ascii.eqb Bool.eqb rev str string_of_list_ascii].
  rewrite app_nil_r, rev_involutive.
  unfold chars. rewrite string_of_list_ascii_of_string. reflexivity.
Qed.

Lemma open_mem (w : world) (p : Z) (pr : proc) :
  0 <= p ->
  procs w !! p = Some pr ->
  p_foreign pr = false ->
  open (Linux.mem_path {| Linux.pid := Some p |}) "rb+" w =
    (Ok (next_fd w),
     with_files w
       (<[next_fd w := {| f_pid := p; f_kind := FMem; f_pos := 0 |}]>
          (files w))
       (S (next_fd w))).
Proof.
  intros Hp Hpr Hf. unfold open.
  rewrite (mem_path_resolves p Hp), (pid_of_name_str p Hp).
  cbn [kind_of_name String.eqb Ascii.eqb Bool.eqb].
  rewrite Hpr, Hf. reflexivity.
Qed.

Lemma ptrace_write_full (w : world) (p : Z) (pr : proc) (base : Z)
    (buf : list byte) :
  0 <= p ->
  procs w !! p = Some pr ->
  p_foreign pr = false ->
  (forall x, base <= x < base + Z.of_nat (length buf) ->
             can_write (p_regions pr) x = true) ->
  exists w',
    Linux.write_memory {| Linux.pid := Some p |} base buf w = (Ok tt, w') /\
    procs w' !! p =
      Some (with_bytes pr
              (snd (store (p_regions pr) (p_bytes pr) base buf))).
Proof.
  intros Hp Hpr Hf Hw.
  pose proof (store_count (p_regions pr) buf (p_bytes pr) base Hw) as Hn.
  destruct (store (p_regions pr) (p_bytes pr) base buf) as [n m'] eqn:Hst.
  cbn [fst snd] in *. subst n.
  eexists. split.
  - erewrite (ptrace_write_outcome (W := world) _ base buf _ _
                (Ok (Z.of_nat (length buf)))).
    + reflexivity.
    + cbn [io_open ref_os]. apply (open_mem w p pr Hp Hpr Hf).
    + cbn [io_seek ref_os]. unfold seek. cbn [files with_files].
      rewrite lookup_insert_eq. reflexivity.
    + cbn [io_write ref_os]. unfold write, target.
      cbn [files procs with_files next_fd].
      rewrite lookup_insert_eq. cbn [moved f_pid f_kind f_pos].
      rewrite Hpr. unfold moved. cbn [f_pid f_kind f_pos].
      rewrite Hst, Nat.eqb_refl. reflexivity.
    + discriminate.
    + reflexivity.
  - cbn. apply lookup_insert_eq.
Qed.

Lemma ptrace_read_full (w : world) (p : Z) (pr : proc) (base : Z)
    (scratch : list byte) :
  0 <= p ->
  procs w !! p = Some pr ->
  p_foreign pr = false ->
  length (load (p_regions pr) (p_bytes pr) base (length scratch))
    = length scratch ->
  exists w',
    Linux.read_memory {| Linux.pid := Some p |} base scratch w
      = (Ok (load (p_regions pr) (p_bytes pr) base (length scratch)), w').
Proof.
  intros Hp Hpr Hf Hlen.
  eexists.
  erewrite (ptrace_read_outcome (W := world) _ base scratch _ _
              (Ok (load (p_regions pr) (p_bytes pr) base
                        (length scratch)))).
  - rewrite store_prefix_full by exact Hlen. reflexivity.
  - cbn [io_open ref_os]. apply (open_mem w p pr Hp Hpr Hf).
  - cbn [io_seek ref_os]. unfold seek. cbn [files with_files].
    rewrite lookup_insert_eq. reflexivity.
  - cbn [io_readinto ref_os]. unfold readinto, target.
    cbn [files procs with_files next_fd].
    rewrite lookup_insert_eq. cbn [moved f_pid f_kind f_pos].
    rewrite Hpr. unfold moved. cbn [f_pid f_kind f_pos].
    rewrite Nat2Z.id, Hlen, Nat.eqb_refl. reflexivity.
  - discriminate.
  - reflexivity.
Qed.

(** ** The round trip *)

(** The claim C8 fails: address [0x1ffc] lies in the readable and writable
    page of the target, and eight bytes are written there.  Four fit
    before the end of the page; [write_memory] of the vectorized-copy
    backend returns normally, and so does the [read_memory] that follows,
    with a buffer whose last four bytes were never read. *)
Lemma C8_round_trip_fails :
  let self := {| LinuxVm.pid := Some 4242 |} in
  can_read (p_regions Examples.target_proc) 8188 = true /\
  can_write (p_regions Examples.target_proc) 8188 = true /\
  exists w1 got w2,
    LinuxVm.write_memory self 8188 Examples.eight_bytes Examples.w_plain
      = (Ok tt, w1) /\
    LinuxVm.read_memory self 8188 (repeat xff 8) w1 = (Ok got, w2) /\
    got <> Examples.eight_bytes.
Proof.
  split; [reflexivity|]. split; [reflexivity|].
  eexists. eexists. eexists. split; [|split].
  - vm_compute. reflexivity.
  - vm_compute. reflexivity.
  - discriminate.
Qed.

(** C8, amended: in the reference world, let the whole range
    [base, base + len(buf)) of a target that the caller may access be
    readable and writable.  Then on both backends [write_memory] of [buf]
    at [base] returns normally, and a [read_memory] at [base] into a
    buffer of the length of [buf], made right after it, returns [buf]. *)
Theorem C8_round_trip (w : world) (p : Z) (pr : proc) (base : Z)
    (buf scratch : list byte) :
  0 <= p ->
  procs w !! p = Some pr ->
  p_foreign pr = false ->
  (forall x, base <= x < base + Z.of_nat (length buf) ->
             can_read (p_regions pr) x = true /\
             can_write (p_regions pr) x = true) ->
  length scratch = length buf ->
  (exists w1 w2,
      LinuxVm.write_memory {| LinuxVm.pid := Some p |} base buf w
        = (Ok tt, w1) /\
      LinuxVm.read_memory {| LinuxVm.pid := Some p |} base scratch w1
        = (Ok buf, w2)) /\
  (exists w1 w2,
      Linux.write_memory {| Linux.pid := Some p |} base buf w
        = (Ok tt, w1) /\
      Linux.read_memory {| Linux.pid := Some p |} base scratch w1
        = (Ok buf, w2)).
Proof.
  intros Hp Hpr Hf Hrw Hlen.
  assert (Hw : forall x, base <= x < base + Z.of_nat (length buf) ->
                         can_write (p_regions pr) x = true)
    by (intros x Hx; apply (Hrw x Hx)).
  pose proof (load_store (p_regions pr) buf (p_bytes pr) base Hrw) as Hback.
  set (m' := snd (store (p_regions pr) (p_bytes pr) base buf)) in *.
  assert (Hfull : length (load (p_regions (with_bytes pr m'))
                               (p_bytes (with_bytes pr m')) base
                               (length scratch)) = length scratch).
  { cbn [with_bytes p_regions p_bytes]. rewrite Hlen, Hback. reflexivity. }
  split.
  - destruct (vm_write_full w p pr base buf Hpr Hf Hw) as (w1 & Hwr & Hp1).
    exists w1, w1. split; [exact Hwr|].
    rewrite (vm_read_full w1 p (with_bytes pr m') base scratch Hp1 Hf Hfull).
    cbn [with_bytes p_regions p_bytes]. rewrite Hlen, Hback. reflexivity.
  - destruct (ptrace_write_full w p pr base buf Hp Hpr Hf Hw)
      as (w1 & Hwr & Hp1).
    destruct (ptrace_read_full w1 p (with_bytes pr m') base scratch
                Hp Hp1 Hf Hfull) as (w2 & Hrd).
    exists w1, w2. split; [exact Hwr|].
    rewrite Hrd. cbn [with_bytes p_regions p_bytes].
    rewrite Hlen, Hback. reflexivity.
Qed.

(** Four bytes written at the start of the target's page are read back. *)
Lemma C8_round_trip_witness :
  (exists w1 w2,
      LinuxVm.write_memory {| LinuxVm.pid := Some 4242 |} 4096
        Examples.four_bytes Examples.w_plain = (Ok tt, w1) /\
      LinuxVm.read_memory {| LinuxVm.pid := Some 4242 |} 4096
        [x00; x00; x00; x00] w1 = (Ok Examples.four_bytes, w2)) /\
  (exists w1 w2,
      Linux.write_memory {| Linux.pid := Some 4242 |} 4096
        Examples.four_bytes Examples.w_plain = (Ok tt, w1) /\
      Linux.read_memory {| Linux.pid := Some 4242 |} 4096
        [x00; x00; x00; x00] w1 = (Ok Examples.four_bytes, w2)).
Proof.
  apply (C8_round_trip Examples.w_plain 4242 Examples.target_proc 4096
           Examples.four_bytes [x00; x00; x00; x00]).
  - lia.
  - reflexivity.
  - reflexivity.
  - intros x Hx. cbn in Hx.
    unfold can_read, can_write, in_region. cbn.
    destruct (Z.leb_spec 4096 x); [|lia].
    destruct (Z.ltb_spec x 8192); [|lia]. split; reflexivity.
  - reflexivity.
Defined.

End RoundTrip.

(* ===================================================================== *)
(** * Further properties: import, discovery, attach and close            *)
(* ===================================================================== *)

Section MoreSelection.
Import Init.

Lemma py_int_outcome (base : Z) (s : string) :
  (exists n, py_int base s = Ok n) \/ py_int base s = Raise ValueError.
Proof.
  unfold py_int.
  match goal with
  | |- context [match ?t with Some _ => _ | None => _ end] =>
      destruct t as [n|]
  end; [left; exists n; reflexivity | right; reflexivity].
Qed.

Lemma split_on_go_nonempty (sep : ascii) (l : list ascii) :
  forall cur, split_on_go sep cur l <> [].
Proof.
  induction l as [|c l IH]; intros cur; cbn; [discriminate|].
  destruct (Ascii.eqb c sep); [discriminate | apply IH].
Qed.

(** X1: on Linux the import succeeds exactly when the release has at least
    two dot-separated fields and [int()] accepts the first two.  It raises
    [IndexError] exactly when the release has no dot and its only field is
    an integer, and [ValueError] exactly when the first field, or else the
    second, is not an integer; the effective uid plays no part in this. *)
Theorem X1_import_outcomes_on_linux (h : Host) :
  system h = "Linux" ->
  (is_Ok (select h) = true <->
   exists a b rest major minor,
     split_on "."%char (release h) = a :: b :: rest /\
     py_int 10 a = Ok major /\ py_int 10 b = Ok minor) /\
  (select h = Raise IndexError <->
   exists a major,
     split_on "."%char (release h) = [a] /\ py_int 10 a = Ok major) /\
  (select h = Raise ValueError <->
   exists a rest,
     split_on "."%char (release h) = a :: rest /\
     (py_int 10 a = Raise ValueError \/
      exists major b rest',
        py_int 10 a = Ok major /\ rest = b :: rest' /\
        py_int 10 b = Raise ValueError)).
Proof.
  intros Hsys. unfold select. rewrite Hsys. cbn [String.eqb Ascii.eqb Bool.eqb].
  change (if ("Linux" =? "Windows")%string then _ else _) with
    (let kv := split_on "."%char (release h) in
     rbind (match nth_error kv 0 with
            | Some s => py_int 10 s | None => Raise IndexError end)
       (fun major =>
        rbind (match nth_error kv 1 with
               | Some s => py_int 10 s | None => Raise IndexError end)
          (fun minor =>
           if (euid h =? 0) && ((major >? 3) || (major =? 3) && (minor >=? 2))
           then Ok linux_vm_Process else Ok linux_Process))).
  cbv zeta.
  pose proof (split_on_go_nonempty "."%char (chars (release h)) []) as Hne.
  fold (split_on "."%char (release h)) in Hne.
  destruct (split_on "."%char (release h)) as [|a rest]; [contradiction|].
  clear Hne. cbn [nth_error].
  destruct (py_int_outcome 10 a) as [[major Ha]|Ha]; rewrite Ha; cbn [rbind].
  - destruct rest as [|b rest']; cbn [nth_error rbind].
    + split; [|split]; split.
      * discriminate.
      * intros (a' & b' & r' & _ & _ & E & _). discriminate.
      * intros _. exists a, major. auto.
      * reflexivity.
      * discriminate.
      * intros (a' & r' & E & [Hv | (m & b' & r'' & _ & Er & _)]).
        -- inversion E; subst. congruence.
        -- inversion E; subst. discriminate.
    + destruct (py_int_outcome 10 b) as [[minor Hb]|Hb]; rewrite Hb;
        cbn [rbind].
      * split; [|split]; split.
        -- intros _. exists a, b, rest', major, minor. auto.
        -- intros _. destruct (_ && _); reflexivity.
        -- destruct (_ && _); discriminate.
        -- intros (a' & m & E & _). discriminate.
        -- destruct (_ && _); discriminate.
        -- intros (a' & r' & E & [Hv | (m & b' & r'' & _ & Er & Hv)]);
             inversion E; subst; congruence.
      * split; [|split]; split.
        -- discriminate.
        -- intros (a' & b' & r' & m & n & E & _ & Hn).
           inversion E; subst. congruence.
        -- discriminate.
        -- intros (a' & m & E & _). discriminate.
        -- intros _. exists a, (b :: rest'). split; [reflexivity|].
           right. exists major, b, rest'. auto.
        -- reflexivity.
  - split; [|split]; split.
    + discriminate.
    + intros (a' & b' & r' & m & n & E & Hm & _).
      inversion E; subst. congruence.
    + discriminate.
    + intros (a' & m & E & Hm). inversion E; subst. congruence.
    + intros _. exists a, rest. auto.
    + reflexivity.
Qed.

(** Release [6.1-rc1]: the second field is [1-rc1]. *)
Lemma X1_import_outcomes_on_linux_witness :
  select MoreExamples.rc_host = Raise ValueError.
Proof.
  apply (proj2 (proj2 (X1_import_outcomes_on_linux MoreExamples.rc_host
                         eq_refl))).
  exists "6", ["1-rc1"]. split; [reflexivity|].
  right. exists 6, "1-rc1", []. repeat split; reflexivity.
Defined.

End MoreSelection.

Section MoreDiscovery.
Context {W : Type} `{OS W}.

Lemma ints_of_entries_total (entries : list string) :
  ints_of_entries entries = Ok (omap accepted_pid entries).
Proof.
  induction entries as [|e rest IH]; [reflexivity|].
  cbn [ints_of_entries omap list_omap]. unfold accepted_pid at 1.
  destruct (py_int_outcome 10 e) as [[n He]|He]; rewrite He.
  - rewrite IH. reflexivity.
  - exact IH.
Qed.

(** X2: whenever [os.listdir('/proc')] returns, [list_available_pids]
    returns too, on both backends: its result holds, in listing order, the
    value of every entry that [int()] accepts, and nothing for the other
    entries.  It raises only what [os.listdir] raises. *)
Theorem X2_list_available_pids (w : W) :
  Linux.list_available_pids w = LinuxVm.list_available_pids w /\
  Linux.list_available_pids w =
    match os_listdir "/proc" w with
    | (Ok entries, w') => (Ok (omap accepted_pid entries), w')
    | (Raise e, w') => (Raise e, w')
    end.
Proof.
  split; [reflexivity|].
  unfold Linux.list_available_pids, shared_list_available_pids, bind, lift.
  destruct (os_listdir "/proc" w) as [[entries|e] w']; [|reflexivity].
  rewrite ints_of_entries_total. reflexivity.
Qed.

Lemma attach_outcome (process_id : Z) (w : W) :
  Linux.init process_id w =
    let '((result, err_no), w') :=
      libc_ptrace Linux.PTRACE_SEIZE process_id 0 0 w in
    if (result =? -1) && negb (err_no =? 0)
    then (Raise (MemEditError
                   (ptrace_error_text Linux.PTRACE_SEIZE process_id 0 0
                                      err_no)), w')
    else (Ok {| Linux.pid := Some process_id |}, w').
Proof.
  unfold Linux.init, Linux.ptrace, bind, ret, ptrace_error_text.
  destruct (libc_ptrace Linux.PTRACE_SEIZE process_id 0 0 w)
    as [[result err_no] w'].
  destruct ((result =? -1) && negb (err_no =? 0)); reflexivity.
Qed.


(** X4: once SIGSTOP is sent and the wait has returned or raised
    [ChildProcessError], a PTRACE_DETACH that fails with a non-zero errno
    makes [close] raise [MemEditError].  The handle keeps its pid, and the
    world is left as the failed call left it: SIGCONT is never sent. *)
Theorem X4_close_detach_failure (self : Linux.Process) (p : Z)
    (w w1 w2 w3 : W) (waited : result (Z * Z)) (err_no : Z) :
  Linux.pid self = Some p ->
  os_kill p SIGSTOP w = (Ok tt, w1) ->
  os_waitpid p 0 w1 = (waited, w2) ->
  is_Ok waited = true \/ waited = Raise (OSError ECHILD) ->
  libc_ptrace Linux.PTRACE_DETACH p 0 0 w2 = ((-1, err_no), w3) ->
  err_no <> 0 ->
  Linux.close self w =
    (Raise (MemEditError
              (ptrace_error_text Linux.PTRACE_DETACH p 0 0 err_no)),
     self, w3).
Proof.
  intros Hpid Hkill Hwait Hw Hdet Herr.
  unfold Linux.close, bind, try_except, py_kill, py_waitpid, ret,
    Linux.ptrace, ptrace_error_text.
  rewrite Hpid, Hkill, Hwait.
  assert (Hz : (err_no =? 0) = false) by (apply Z.eqb_neq; exact Herr).
  destruct Hw as [Hok | ->].
  - destruct waited as [st|e]; [|discriminate].
    rewrite Hdet, Hz. reflexivity.
  - cbn [is_ChildProcessError]. rewrite Z.eqb_refl, Hdet, Hz. reflexivity.
Qed.

End MoreDiscovery.

(** The target 4242 was never seized: the wait raises
    [ChildProcessError], the detach fails with ESRCH, and the target
    stays stopped. *)
Lemma X4_close_detach_failure_witness :
  exists w3,
    Linux.close {| Linux.pid := Some 4242 |} Examples.w_plain =
      (Raise (MemEditError
         "ptrace(17, 4242, 0, 0) failed with error 3: No such process"),
       {| Linux.pid := Some 4242 |}, w3) /\
    RefOS.p_stopped <$> RefOS.procs w3 !! 4242 = Some true.
Proof.
  eexists. split.
  - eapply (@X4_close_detach_failure RefOS.world RefOS.ref_os
              {| Linux.pid := Some 4242 |} 4242 Examples.w_plain
              _ _ _ (Raise (OSError ECHILD)) ESRCH eq_refl).
    + vm_compute. reflexivity.
    + vm_compute. reflexivity.
    + right. reflexivity.
    + vm_compute. reflexivity.
    + discriminate.
  - vm_compute. reflexivity.
Defined.

(* ===================================================================== *)
(** * Further properties: the life of a handle in the reference world     *)
(* ===================================================================== *)

Section HandleLife.
Import RefOS.

Lemma with_trace_twice (pr : proc) (t1 s1 t2 s2 : bool) :
  with_trace (with_trace pr t1 s1) t2 s2 = with_trace pr t2 s2.
Proof. reflexivity. Qed.

Lemma with_procs_twice (w : world) (m1 m2 : gmap Z proc) :
  with_procs (with_procs w m1) m2 = with_procs w m2.
Proof. reflexivity. Qed.

Lemma close_traced_target (w : world) (p : Z) (pr : proc) :
  procs w !! p = Some pr ->
  p_foreign pr = false ->
  p_traced pr = true ->
  Linux.close {| Linux.pid := Some p |} w =
    (Ok tt, {| Linux.pid := None |},
     with_procs w (<[p := with_trace pr false false]> (procs w))).
Proof.
  intros Hp Hf Ht.
  destruct pr as [cmd maps rs bytes foreign traced stopped].
  cbn in Hf, Ht. subst foreign traced.
  unfold Linux.close, bind, try_except, py_kill, py_waitpid, ret,
    Linux.ptrace.
  cbn [Linux.pid os_kill os_waitpid libc_ptrace ref_os].
  unfold kill at 1. rewrite Hp.
  cbn [p_foreign p_traced p_stopped with_trace Z.eqb SIGSTOP Pos.eqb].
  unfold waitpid. cbn [procs with_procs].
  rewrite lookup_insert_eq.
  cbn [p_foreign p_traced p_stopped with_trace negb].
  unfold ptrace_call. cbn [procs with_procs].
  rewrite lookup_insert_eq.
  cbn [p_foreign p_traced p_stopped with_trace Z.eqb Pos.eqb
       Linux.PTRACE_DETACH Linux.PTRACE_SEIZE andb negb Z.opp].
  unfold kill. cbn [procs with_procs].
  rewrite lookup_insert_eq.
  cbn [p_foreign p_traced p_stopped with_trace Z.eqb SIGCONT SIGSTOP
       Pos.eqb].
  unfold with_procs. cbn [procs listing files next_fd].
  rewrite !insert_insert_eq. reflexivity.
Qed.

(** X5: in the reference world, [close] on a handle whose target the
    caller traces and may signal returns normally and clears the pid.  The
    target ends up untraced and running, nothing else about it changes,
    and no other process and no open file is touched. *)
Theorem X5_close_releases_target (w : world) (p : Z) (pr : proc) :
  procs w !! p = Some pr ->
  p_foreign pr = false ->
  p_traced pr = true ->
  Linux.close {| Linux.pid := Some p |} w =
    (Ok tt, {| Linux.pid := None |},
     with_procs w (<[p := with_trace pr false false]> (procs w))).
Proof. apply close_traced_target. Qed.

Lemma X5_close_releases_target_witness :
  Linux.close {| Linux.pid := Some 4242 |} Examples.w_traced =
    (Ok tt, {| Linux.pid := None |},
     with_procs Examples.w_traced
       (<[4242 := with_trace Examples.traced_proc false false]>
          (procs Examples.w_traced))).
Proof.
  apply (X5_close_releases_target Examples.w_traced 4242
           Examples.traced_proc); reflexivity.
Defined.

Lemma untouched_proc (pr : proc) :
  p_traced pr = false -> p_stopped pr = false ->
  with_trace pr false false = pr.
Proof. destruct pr; cbn; intros -> ->; reflexivity. Qed.

Lemma untouched_world (w : world) : with_procs w (procs w) = w.
Proof. destruct w; reflexivity. Qed.

(** X6: in the reference world, attaching to a running process that the
    caller may trace and that nobody traces succeeds, and closing the
    handle right after it gives back the very world the attach started
    from: the target is again untraced and running. *)
Theorem X6_attach_then_close (w : world) (p : Z) (pr : proc) :
  procs w !! p = Some pr ->
  p_foreign pr = false ->
  p_traced pr = false ->
  p_stopped pr = false ->
  exists w1,
    Linux.init p w = (Ok {| Linux.pid := Some p |}, w1) /\
    Linux.close {| Linux.pid := Some p |} w1
      = (Ok tt, {| Linux.pid := None |}, w).
Proof.
  intros Hp Hf Ht Hs.
  exists (with_procs w (<[p := with_trace pr true (p_stopped pr)]>
                          (procs w))).
  split.
  - rewrite attach_outcome.
    cbn [libc_ptrace ref_os]. unfold ptrace_call.
    rewrite Hp, Hf, Ht. reflexivity.
  - rewrite (close_traced_target _ p
               (with_trace pr true (p_stopped pr))).
    + f_equal. rewrite with_trace_twice, with_procs_twice.
      cbn [procs with_procs]. rewrite insert_insert_eq.
      rewrite (untouched_proc pr Ht Hs).
      rewrite (insert_id _ _ _ Hp). apply untouched_world.
    + cbn [procs with_procs]. apply lookup_insert_eq.
    + exact Hf.
    + reflexivity.
Qed.

Lemma X6_attach_then_close_witness :
  exists w1,
    Linux.init 4242 Examples.w_plain
      = (Ok {| Linux.pid := Some 4242 |}, w1) /\
    Linux.close {| Linux.pid := Some 4242 |} w1
      = (Ok tt, {| Linux.pid := None |}, Examples.w_plain).
Proof.
  apply (X6_attach_then_close Examples.w_plain 4242 Examples.target_proc);
    reflexivity.
Defined.

(** X7: a closed handle is of no use for I/O.  On the ptrace backend the
    three methods that open a /proc file format [None] into the path: in
    the reference world, where no such directory exists,
    [read_memory], [write_memory] and [list_mapped_regions] raise
    [FileNotFoundError] and change nothing.  So does [list_mapped_regions]
    of the vectorized-copy backend, whose [read_memory] and [write_memory]
    hand pid 0 to the kernel instead. *)
Theorem X7_use_after_close :
  (forall (w : world) (base : Z) (buffer : list byte),
      Linux.read_memory {| Linux.pid := None |} base buffer w
        = (Raise (OSError ENOENT), w) /\
      Linux.write_memory {| Linux.pid := None |} base buffer w
        = (Raise (OSError ENOENT), w)) /\
  (forall (P : Patterns) (cls : Linux.ProcessClass) (w : world)
          (writeable_only : bool) (include_paths : list string),
      Linux.list_mapped_regions cls {| Linux.pid := None |} writeable_only
        include_paths w = (Raise (OSError ENOENT), w) /\
      LinuxVm.list_mapped_regions {| LinuxVm.pid := None |} writeable_only
        include_paths w = (Raise (OSError ENOENT), w)) /\
  (forall W (O : OS W) (w : W) (base : Z) (buffer : list byte),
      LinuxVm.read_memory {| LinuxVm.pid := None |} base buffer w
        = LinuxVm.read_memory {| LinuxVm.pid := Some 0 |} base buffer w /\
      LinuxVm.write_memory {| LinuxVm.pid := None |} base buffer w
        = LinuxVm.write_memory {| LinuxVm.pid := Some 0 |} base buffer w).
Proof.
  split; [|split].
  - intros w base buffer. split; reflexivity.
  - intros P cls w wo inc. split; reflexivity.
  - intros W O w base buffer. split; reflexivity.
Qed.

End HandleLife.

(* ===================================================================== *)
(** * Further properties: what the methods leave behind                   *)
(* ===================================================================== *)

Section Frames.
Import RefOS.

(** ** The file operations of the reference world *)

Lemma open_effect (path mode : string) (w : world) :
  (exists e, open path mode w = (Raise e, w) /\ e <> Hangs) \/
  (exists o, opens path o /\
     open path mode w =
       (Ok (next_fd w),
        with_files w (<[next_fd w := o]> (files w)) (S (next_fd w)))).
Proof.
  unfold open, opens.
  destruct (proc_path path) as [[x f]|] eqn:Hpp;
    [|left; eexists; split; [reflexivity|discriminate]].
  destruct (pid_of_name x) as [p|] eqn:Hpid;
    [|left; eexists; split; [reflexivity|discriminate]].
  destruct (kind_of_name f) as [k|] eqn:Hk;
    [|left; eexists; split; [reflexivity|discriminate]].
  destruct (procs w !! p) as [pr|];
    [|left; eexists; split; [reflexivity|discriminate]].
  destruct (p_foreign pr);
    [left; eexists; split; [reflexivity|discriminate]|].
  right. eexists. split; [|reflexivity].
  exists x, f. cbn. auto.
Qed.

Lemma seek_effect (f : nat) (pos : Z) (w1 w2 : world) (r : result Z) :
  seek f pos w1 = (r, w2) ->
  file_frame f w1 w2 /\ r <> Raise Hangs /\ procs w2 = procs w1.
Proof.
  unfold seek, file_frame. destruct (files w1 !! f) as [o|];
    intros Hs; inversion Hs; subst; cbn.
  - rewrite delete_insert_eq. repeat split; discriminate.
  - repeat split; discriminate.
Qed.

Lemma readinto_effect (f : nat) (size : Z) (w1 w2 : world)
    (r : result (list byte)) :
  readinto f size w1 = (r, w2) ->
  file_frame f w1 w2 /\ r <> Raise Hangs /\ procs w2 = procs w1.
Proof.
  unfold readinto, target, file_frame.
  destruct (files w1 !! f) as [o|];
    [|intros Hs; inversion Hs; subst; repeat split; discriminate].
  destruct (procs w1 !! f_pid o) as [pr|];
    [|intros Hs; inversion Hs; subst; repeat split; discriminate].
  destruct (f_kind o);
    try (intros Hs; inversion Hs; subst; repeat split; discriminate).
  destruct (_ =? _)%nat; intros Hs; inversion Hs; subst; cbn.
  - rewrite delete_insert_eq. repeat split; discriminate.
  - repeat split; discriminate.
Qed.

Lemma read_effect (f : nat) (w1 w2 : world) (r : result string) :
  read f w1 = (r, w2) -> w2 = w1 /\ r <> Raise Hangs.
Proof.
  unfold read, target.
  destruct (files w1 !! f) as [o|];
    [|intros Hs; inversion Hs; subst; split; [reflexivity|discriminate]].
  destruct (procs w1 !! f_pid o) as [pr|];
    [|intros Hs; inversion Hs; subst; split; [reflexivity|discriminate]].
  destruct (f_kind o); intros Hs; inversion Hs; subst;
    split; (reflexivity || discriminate).
Qed.

Lemma lines_effect (f : nat) (w1 w2 : world)
    (ls : list string) (stopped : option exn) :
  lines f w1 = ((ls, stopped), w2) -> w2 = w1 /\ stopped <> Some Hangs.
Proof.
  unfold lines, target.
  destruct (files w1 !! f) as [o|];
    [|intros Hs; inversion Hs; subst; split; [reflexivity|discriminate]].
  destruct (procs w1 !! f_pid o) as [pr|];
    [|intros Hs; inversion Hs; subst; split; [reflexivity|discriminate]].
  destruct (f_kind o); intros Hs; inversion Hs; subst;
    split; (reflexivity || discriminate).
Qed.

Lemma file_frame_refl (f : nat) (w : world) : file_frame f w w.
Proof. unfold file_frame. auto. Qed.

Lemma file_frame_trans (f : nat) (w1 w2 w3 : world) :
  file_frame f w1 w2 -> file_frame f w2 w3 -> file_frame f w1 w3.
Proof.
  unfold file_frame. intros (A1 & B1 & C1) (A2 & B2 & C2).
  repeat split; congruence.
Qed.

(** ** A [with] block in the reference world *)

(** Let the body of a [with open(...)] block hand out no descriptor, touch
    no open file but its own, and keep a relation [R] between process
    tables.  Then the block keeps [R] and the listing; and when it returns
    or raises in a world whose free descriptors are fresh, the table of
    open files is as the block found it. *)
Lemma with_open_frame {A} (R : gmap Z proc -> gmap Z proc -> Prop)
    (path mode : string) (body : nat -> M world A)
    (w w' : world) (r : result A) :
  (forall m, R m m) ->
  (forall f o w1 rb w2,
      files w1 !! f = Some o -> opens path o ->
      body f w1 = (rb, w2) ->
      file_frame f w1 w2 /\ R (procs w1) (procs w2)) ->
  with_open path mode body w = (r, w') ->
  listing w' = listing w /\
  (next_fd w <= next_fd w')%nat /\
  R (procs w) (procs w') /\
  (fresh_fds w -> r <> Raise Hangs ->
   files w' = files w /\ fresh_fds w') /\
  ((forall f w1 rb w2, body f w1 = (rb, w2) -> rb <> Raise Hangs) ->
   r <> Raise Hangs).
Proof.
  intros Hrefl Hbody.
  unfold with_open, bind, try_finally. cbn [io_open io_close ref_os].
  destruct (open_effect path mode w) as [(e & Ho & He) | (o & Hopens & Ho)];
    rewrite Ho.
  - intros Hr. inversion Hr; subst.
    repeat split; auto. intros _. congruence.
  - remember (next_fd w) as f eqn:Hf.
    remember (with_files w (<[f := o]> (files w)) (S f)) as w1 eqn:Hw1.
    assert (Hl1 : listing w1 = listing w) by (rewrite Hw1; reflexivity).
    assert (Hn1 : next_fd w1 = S f) by (rewrite Hw1; reflexivity).
    assert (Hp1 : procs w1 = procs w) by (rewrite Hw1; reflexivity).
    assert (Hf1 : files w1 !! f = Some o).
    { rewrite Hw1. cbn [files with_files]. apply lookup_insert_eq. }
    destruct (body f w1) as [rb w2] eqn:Hb.
    destruct (Hbody f o w1 rb w2 Hf1 Hopens Hb) as ((Hl & Hn & Hd) & HR).
    rewrite Hp1 in HR.
    assert (Hclosed :
      forall x : result A,
        x <> Raise Hangs ->
        (x, with_files w2 (delete f (files w2)) (next_fd w2)) = (r, w') ->
        listing w' = listing w /\ (f <= next_fd w')%nat /\
        R (procs w) (procs w') /\
        (fresh_fds w -> r <> Raise Hangs ->
         files w' = files w /\ fresh_fds w') /\
        ((forall f w1 rb w2, body f w1 = (rb, w2) -> rb <> Raise Hangs) ->
         r <> Raise Hangs)).
    { intros x Hx Hr. inversion Hr; subst r w'.
      cbn [files listing next_fd procs with_files].
      rewrite Hl, Hn, Hl1, Hn1.
      split; [reflexivity|]. split; [lia|]. split; [exact HR|].
      split; [|intros _; exact Hx].
      intros Hfresh _.
      assert (Hfiles : delete f (files w2) = files w).
      { rewrite Hd, Hw1. cbn [files with_files].
        apply delete_insert_id. apply Hfresh. lia. }
      split; [exact Hfiles|].
      intros k Hk. cbn [files with_files next_fd] in *.
      rewrite Hfiles. apply Hfresh. lia. }
    unfold close.
    destruct rb as [a|e]; [apply Hclosed; discriminate|].
    destruct e; try (apply Hclosed; discriminate).
    intros Hr. inversion Hr; subst r w'.
    rewrite Hl, Hn, Hl1, Hn1.
    split; [reflexivity|]. split; [lia|]. split; [exact HR|].
    split; [intros _ Hn'; contradiction|].
    intros Hnh. exact (Hnh _ _ _ _ Hb).
Qed.

(** ** Memory outside a stored range *)






(** ** The methods *)





(** ** Methods that only read *)

Lemma read_body_frame (base size : Z) (k : list byte -> list byte)
    (f : nat) (w1 w2 : world) (rb : result (list byte)) :
  bind (io_seek f base)
       (fun _ => bind (io_readinto f size) (fun data => ret (k data))) w1
    = (rb, w2) ->
  file_frame f w1 w2 /\ procs w1 = procs w2 /\ rb <> Raise Hangs.
Proof.
  unfold bind, ret. cbn [io_seek io_readinto ref_os].
  destruct (seek f base w1) as [rs wa] eqn:Hs.
  destruct (seek_effect _ _ _ _ _ Hs) as (Hfa & Hna & Hpa).
  destruct rs as [z|e].
  - destruct (readinto f size wa) as [rr wb] eqn:Hr.
    destruct (readinto_effect _ _ _ _ _ Hr) as (Hfb & Hnb & Hpb).
    destruct rr as [data|e]; intros Hb; inversion Hb; subst;
      (split; [eapply file_frame_trans; eauto|]);
      (split; [congruence|]); [discriminate|congruence].
  - intros Hb; inversion Hb; subst.
    split; [exact Hfa|]. split; congruence.
Qed.

Lemma ptrace_read_frame (self : Linux.Process) (base : Z)
    (buffer : list byte) (w w' : world) (r : result (list byte)) :
  Linux.read_memory self base buffer w = (r, w') ->
  listing w' = listing w /\ procs w' = procs w /\ r <> Raise Hangs /\
  (fresh_fds w -> files w' = files w /\ fresh_fds w').
Proof.
  intros Hrun. unfold Linux.read_memory in Hrun.
  apply (with_open_frame eq) in Hrun.
  - destruct Hrun as (Hl & _ & HR & Hfiles & Hnh).
    assert (Hr : r <> Raise Hangs).
    { apply Hnh. intros f w1 rb w2 Hb.
      apply (read_body_frame _ _ _ _ _ _ _ Hb). }
    repeat split; auto; apply Hfiles; auto.
  - reflexivity.
  - intros f o w1 rb w2 _ _ Hb.
    destruct (read_body_frame _ _ _ _ _ _ _ Hb) as (Hf & Hp & _). auto.
Qed.

Lemma first_token_body (f : nat) (w1 w2 : world) (rb : result string) :
  bind (io_read f)
       (fun raw => bind (lift (decode raw))
                        (fun text => ret (hd "" (split_on NUL text)))) w1
    = (rb, w2) ->
  w2 = w1 /\ rb <> Raise Hangs.
Proof.
  unfold bind, ret, lift. cbn [io_read ref_os].
  destruct (read f w1) as [rr wa] eqn:Hr.
  destruct (read_effect _ _ _ _ Hr) as (-> & Hnh).
  destruct rr as [raw|e].
  - unfold decode. destruct (utf8_ok _ _); intros Hb; inversion Hb;
      subst; split; (reflexivity || discriminate).
  - intros Hb; inversion Hb; subst. split; [reflexivity|exact Hnh].
Qed.

Lemma first_token_frame (path : string) (w w' : world)
    (r : result string) :
  first_token_of path w = (r, w') ->
  listing w' = listing w /\ procs w' = procs w /\ r <> Raise Hangs /\
  (fresh_fds w -> files w' = files w /\ fresh_fds w').
Proof.
  intros Hrun. unfold first_token_of in Hrun.
  apply (with_open_frame eq) in Hrun.
  - destruct Hrun as (Hl & _ & HR & Hfiles & Hnh).
    assert (Hr : r <> Raise Hangs).
    { apply Hnh. intros f w1 rb w2 Hb.
      apply (first_token_body _ _ _ _ Hb). }
    repeat split; auto; apply Hfiles; auto.
  - reflexivity.
  - intros f o w1 rb w2 _ _ Hb.
    destruct (first_token_body _ _ _ _ Hb) as (-> & _).
    split; [apply file_frame_refl | reflexivity].
Qed.

Lemma get_path_frame (w w' : world) (r : result string) :
  shared_get_path w = (r, w') ->
  listing w' = listing w /\ procs w' = procs w /\ r <> Raise Hangs /\
  (fresh_fds w -> files w' = files w /\ fresh_fds w').
Proof.
  unfold shared_get_path, try_except, ret.
  destruct (first_token_of "/proc/{}/cmdline" w) as [rt wa] eqn:Ht.
  destruct (first_token_frame _ _ _ _ Ht) as (Hl & Hp & Hnh & Hf).
  destruct rt as [a|e].
  - intros Hr; inversion Hr; subst. auto.
  - destruct (is_FileNotFoundError e); intros Hr; inversion Hr; subst;
      repeat split; auto; try discriminate; apply Hf; auto.
Qed.

Lemma find_pid_frame (name : string) (pids : list Z) :
  forall (w w' : world) (r : result (option Z)),
    find_pid name pids w = (r, w') ->
    listing w' = listing w /\ procs w' = procs w /\ r <> Raise Hangs /\
    (fresh_fds w -> files w' = files w /\ fresh_fds w').
Proof.
  induction pids as [|p rest IH]; intros w w' r Hrun.
  - inversion Hrun; subst. repeat split; auto; discriminate.
  - rewrite find_pid_step in Hrun.
    destruct (first_token_of (cmdline_file p) w) as [rt wa] eqn:Ht.
    destruct (first_token_frame _ _ _ _ Ht) as (Hl & Hp & Hnh & Hf).
    assert (Hgo : find_pid name rest wa = (r, w') ->
                  listing w' = listing w /\ procs w' = procs w /\
                  r <> Raise Hangs /\
                  (fresh_fds w -> files w' = files w /\ fresh_fds w')).
    { intros Hrest.
      destruct (IH _ _ _ Hrest) as (Hl' & Hp' & Hnh' & Hf').
      split; [congruence|]. split; [congruence|]. split; [exact Hnh'|].
      intros Hfresh. destruct (Hf Hfresh) as [Hfa Hfresha].
      destruct (Hf' Hfresha) as [Hfb Hfreshb].
      split; [congruence | exact Hfreshb]. }
    destruct rt as [path|e].
    + destruct (String.eqb (basename path) name); [|exact (Hgo Hrun)].
      inversion Hrun; subst. repeat split; auto; try discriminate;
        apply Hf; auto.
    + destruct (is_FileNotFoundError e); [exact (Hgo Hrun)|].
      inversion Hrun; subst.
      split; [exact Hl|]. split; [exact Hp|].
      split; [intros Heq; apply Hnh; congruence | exact Hf].
Qed.

Lemma get_pid_by_name_frame (name : string) (w w' : world)
    (r : result (option Z)) :
  shared_get_pid_by_name name w = (r, w') ->
  listing w' = listing w /\ procs w' = procs w /\ r <> Raise Hangs /\
  (fresh_fds w -> files w' = files w /\ fresh_fds w').
Proof.
  unfold shared_get_pid_by_name, shared_list_available_pids, bind, lift.
  cbn [os_listdir ref_os]. unfold listdir. cbn [String.eqb Ascii.eqb
    Bool.eqb].
  rewrite ints_of_entries_total. apply find_pid_frame.
Qed.

Lemma parse_bounds_outcome (bounds : string) :
  (exists r, parse_bounds bounds = Ok r) \/
  parse_bounds bounds = Raise ValueError.
Proof.
  unfold parse_bounds.
  destruct (split_on "-"%char bounds) as [|a [|b [|c l]]]; auto.
  destruct (py_int_outcome 16 a) as [[x ->]| ->]; cbn [rbind]; auto.
  destruct (py_int_outcome 16 b) as [[y ->]| ->]; cbn [rbind]; eauto.
Qed.

Lemma vm_line_outcome (writeable_only : bool)
    (include_paths : list string) (line : string) :
  is_Ok (LinuxVm.region_of_line writeable_only include_paths line) = true
  \/ LinuxVm.region_of_line writeable_only include_paths line
     = Raise ValueError.
Proof.
  unfold LinuxVm.region_of_line.
  destruct (str_in "/dev/dri/" line); [left; reflexivity|].
  destruct (str_in "Proton" line); [left; reflexivity|].
  unfold unpack2.
  destruct (firstn 2 (split_ws line)) as [|a [|b [|c l]]];
    cbn [rbind]; auto.
  destruct (negb (str_in "r" b)); [left; reflexivity|].
  destruct (writeable_only && negb (str_in "w" b)); [left; reflexivity|].
  destruct (parse_bounds_outcome a) as [[r ->]| ->]; cbn [rbind]; auto.
Qed.

Lemma collect_regions_raises (step : string -> result (option (Z * Z)))
    (lines : list string) (e : exn) :
  collect_regions step lines = Raise e ->
  exists line, In line lines /\ step line = Raise e.
Proof.
  induction lines as [|line rest IH]; cbn; [discriminate|].
  destruct (step line) as [[r|]|e'] eqn:Hs.
  - destruct (collect_regions step rest) as [rs|e'']; [discriminate|].
    cbn. intros He; inversion He; subst.
    destruct (IH eq_refl) as (l & Hl & Hr). eauto.
  - intros He. destruct (IH He) as (l & Hl & Hr). eauto.
  - intros He; inversion He; subst. eauto.
Qed.

Lemma scan_frame (path : string)
    (step : string -> result (option (Z * Z)))
    (w w' : world) (r : result (list (Z * Z))) :
  with_open path "r" (scan_maps step) w = (r, w') ->
  listing w' = listing w /\ procs w' = procs w /\
  (fresh_fds w -> r <> Raise Hangs -> files w' = files w /\ fresh_fds w') /\
  ((forall line, step line <> Raise Hangs) -> r <> Raise Hangs).
Proof.
  intros Hrun. apply (with_open_frame eq) in Hrun.
  - destruct Hrun as (Hl & _ & HR & Hfiles & Hnh).
    repeat split; auto; try (apply Hfiles; auto).
    intros Hstep. apply Hnh. intros f w1 rb w2.
    unfold scan_maps. cbn [io_lines ref_os].
    destruct (lines f w1) as [[ls stopped] wa] eqn:Hls.
    destruct (lines_effect _ _ _ _ _ Hls) as (-> & Hst).
    destruct (collect_regions step ls) as [rs|e] eqn:Hc.
    + destruct stopped as [e|]; intros Hb; inversion Hb; subst;
        [congruence | discriminate].
    + intros Hb; inversion Hb; subst. intros He; inversion He; subst.
      destruct (collect_regions_raises _ _ _ Hc) as (l & _ & Hr).
      exact (Hstep l Hr).
  - reflexivity.
  - intros f o w1 rb w2 _ _. unfold scan_maps. cbn [io_lines ref_os].
    destruct (lines f w1) as [[ls stopped] wa] eqn:Hls.
    destruct (lines_effect _ _ _ _ _ Hls) as (-> & _).
    destruct (collect_regions step ls); [destruct stopped|];
      intros Hb; inversion Hb; subst;
      (split; [apply file_frame_refl | reflexivity]).
Qed.

(** X9: in the reference world, the methods that only read leave every
    process as it was, whether they return or raise: [read_memory] and
    [list_mapped_regions] on both backends, [get_path], and
    [get_pid_by_name]; [read_memory] of the vectorized-copy backend leaves
    the whole world as it was. *)
Theorem X9_reading_changes_no_process (w : world) :
  (forall self base buffer,
      snd (LinuxVm.read_memory self base buffer w) = w) /\
  (forall self base buffer,
      procs (snd (Linux.read_memory self base buffer w)) = procs w) /\
  (forall (P : Patterns) cls self writeable_only include_paths,
      procs (snd (Linux.list_mapped_regions cls self writeable_only
                    include_paths w)) = procs w) /\
  (forall self writeable_only include_paths,
      procs (snd (LinuxVm.list_mapped_regions self writeable_only
                    include_paths w)) = procs w) /\
  (forall self, procs (snd (Linux.get_path self w)) = procs w) /\
  (forall name, procs (snd (Linux.get_pid_by_name name w)) = procs w) /\
  (forall name, procs (snd (LinuxVm.get_pid_by_name name w)) = procs w).
Proof.
  repeat match goal with |- _ /\ _ => split end.
  - intros self base buffer. rewrite vm_read_outcome.
    cbn [libc_process_vm_readv ref_os]. unfold process_vm_readv.
    destruct (procs w !! _) as [pr|]; [|reflexivity].
    destruct (p_foreign pr); [reflexivity|].
    destruct (_ && _); [reflexivity|].
    destruct (_ =? -1); reflexivity.
  - intros self base buffer.
    destruct (Linux.read_memory self base buffer w) as [r w'] eqn:Hrun.
    apply (ptrace_read_frame _ _ _ _ _ _ Hrun).
  - intros P cls self wo inc.
    destruct (Linux.list_mapped_regions cls self wo inc w) as [r w']
      eqn:Hrun.
    apply (scan_frame _ _ _ _ _ Hrun).
  - intros self wo inc.
    destruct (LinuxVm.list_mapped_regions self wo inc w) as [r w']
      eqn:Hrun.
    apply (scan_frame _ _ _ _ _ Hrun).
  - intros self.
    destruct (Linux.get_path self w) as [r w'] eqn:Hrun.
    apply (get_path_frame _ _ _ Hrun).
  - intros name.
    destruct (Linux.get_pid_by_name name w) as [r w'] eqn:Hrun.
    apply (get_pid_by_name_frame _ _ _ _ Hrun).
  - intros name.
    destruct (LinuxVm.get_pid_by_name name w) as [r w'] eqn:Hrun.
    apply (get_pid_by_name_frame _ _ _ _ Hrun).
Qed.

(** X10: in the reference world, every /proc file a method opened is
    closed again when the method returns or raises: started where the
    descriptors from [next_fd] on are free, [read_memory] and
    [write_memory] of the ptrace backend, [list_mapped_regions] of both
    backends, [get_path] and [get_pid_by_name] end with the table of open
    files they started with. *)
Theorem X10_no_file_left_open (w : world) :
  fresh_fds w ->
  (forall self base buffer,
      files (snd (Linux.read_memory self base buffer w)) = files w) /\
  (forall self base buffer,
      files (snd (Linux.write_memory self base buffer w)) = files w) /\
  (forall (P : Patterns) cls self writeable_only include_paths,
      fst (Linux.list_mapped_regions cls self writeable_only include_paths
             w) <> Raise Hangs ->
      files (snd (Linux.list_mapped_regions cls self writeable_only
                    include_paths w)) = files w) /\
  (forall self writeable_only include_paths,
      files (snd (LinuxVm.list_mapped_regions self writeable_only
                    include_paths w)) = files w) /\
  (forall self, files (snd (Linux.get_path self w)) = files w) /\
  (forall name, files (snd (Linux.get_pid_by_name name w)) = files w).
Proof.
  intros Hfresh. repeat match goal with |- _ /\ _ => split end.
  - intros self base buffer.
    destruct (Linux.read_memory self base buffer w) as [r w'] eqn:Hrun.
    apply (ptrace_read_frame _ _ _ _ _ _ Hrun). exact Hfresh.
  - intros self base buffer.
    destruct (Linux.write_memory self base buffer w) as [r w'] eqn:Hrun.
    unfold Linux.write_memory in Hrun.
    apply (with_open_frame (fun _ _ => True)) in Hrun.
    + destruct Hrun as (_ & _ & _ & Hfiles & Hnh).
      apply Hfiles; [exact Hfresh|].
      apply Hnh. intros f w1 rb w2.
      unfold bind, ret. cbn [io_seek io_write ref_os].
      destruct (seek f base w1) as [rs wa] eqn:Hs.
      destruct (seek_effect _ _ _ _ _ Hs) as (_ & Hns & _).
      destruct rs as [z|e];
        [|intros Hb; inversion Hb; subst;
          intros Heq; apply Hns; congruence].
      destruct (write f buffer wa) as [rw wb] eqn:Hw.
      assert (Hnw : rw <> Raise Hangs).
      { revert Hw. unfold write, target.
        destruct (files wa !! f) as [o|];
          [|intros Hx; inversion Hx; discriminate].
        destruct (procs wa !! f_pid o) as [pr|];
          [|intros Hx; inversion Hx; discriminate].
        destruct (f_kind o); try (intros Hx; inversion Hx; discriminate).
        destruct (store _ _ _ _) as [n m'].
        destruct (n =? _)%nat; intros Hx; inversion Hx; discriminate. }
      destruct rw; intros Hb; inversion Hb; subst;
        [discriminate | intros Heq; apply Hnw; congruence].
    + auto.
    + intros f o w1 rb w2 Hf _.
      unfold bind, ret. cbn [io_seek io_write ref_os].
      destruct (seek f base w1) as [rs wa] eqn:Hs.
      destruct (seek_effect _ _ _ _ _ Hs) as (Hfa & _ & _).
      destruct rs as [z|e];
        [|intros Hb; inversion Hb; subst; auto].
      destruct (write f buffer wa) as [rw wb] eqn:Hw.
      assert (Hfb : file_frame f wa wb).
      { revert Hw. unfold write, target.
        destruct (files wa !! f) as [o'|];
          [|intros Hx; inversion Hx; apply file_frame_refl].
        destruct (procs wa !! f_pid o') as [pr|];
          [|intros Hx; inversion Hx; apply file_frame_refl].
        destruct (f_kind o');
          try (intros Hx; inversion Hx; apply file_frame_refl).
        destruct (store _ _ _ _) as [n m'].
        destruct (n =? _)%nat; intros Hx; inversion Hx;
          unfold file_frame; cbn; [rewrite delete_insert_eq|]; auto. }
      destruct rw; intros Hb; inversion Hb; subst;
        (split; [eapply file_frame_trans; eauto | exact I]).
  - intros P cls self wo inc Hnh.
    destruct (Linux.list_mapped_regions cls self wo inc w) as [r w']
      eqn:Hrun.
    apply (scan_frame _ _ _ _ _ Hrun); assumption.
  - intros self wo inc.
    destruct (LinuxVm.list_mapped_regions self wo inc w) as [r w']
      eqn:Hrun.
    destruct (scan_frame _ _ _ _ _ Hrun) as (_ & _ & Hfiles & Hnh).
    apply Hfiles; [exact Hfresh|]. apply Hnh.
    intros line He.
    destruct (vm_line_outcome wo inc line) as [Hok|Hv];
      rewrite He in *; discriminate.
  - intros self.
    destruct (Linux.get_path self w) as [r w'] eqn:Hrun.
    apply (get_path_frame _ _ _ Hrun). exact Hfresh.
  - intros name.
    destruct (Linux.get_pid_by_name name w) as [r w'] eqn:Hrun.
    apply (get_pid_by_name_frame _ _ _ _ Hrun). exact Hfresh.
Qed.

Lemma example_world_fresh : fresh_fds Examples.w_plain.
Proof. intros k _. reflexivity. Qed.

Lemma X10_no_file_left_open_witness :
  files (snd (Linux.get_pid_by_name "target" Examples.w_plain))
    = files Examples.w_plain.
Proof.
  apply (X10_no_file_left_open Examples.w_plain example_world_fresh).
Defined.

End Frames.

(* ===================================================================== *)
(** * Further properties: the region filter                               *)
(* ===================================================================== *)

Section MoreRegions.

Lemma collect_regions_spec (step : string -> result (option (Z * Z)))
    (lines : list string) (regions : list (Z * Z)) :
  collect_regions step lines = Ok regions <->
  all_lines_pass step lines /\ regions = omap (kept_region step) lines.
Proof.
  unfold all_lines_pass. revert regions.
  induction lines as [|line rest IH]; intros regions; cbn.
  - split.
    + intros Hc; inversion Hc; subst. split; [constructor | reflexivity].
    + intros [_ ->]. reflexivity.
  - unfold kept_region at 1.
    destruct (step line) as [[r|]|e] eqn:Hs.
    + destruct (collect_regions step rest) as [rs|e] eqn:Hc; cbn.
      * destruct (IH rs) as [Hto _]. destruct (Hto eq_refl) as [Hall ->].
        split.
        -- intros Hr; inversion Hr; subst. split; [|reflexivity].
           constructor; [rewrite Hs; reflexivity | exact Hall].
        -- intros [_ ->]. reflexivity.
      * split; [discriminate|].
        intros [Hall _]. inversion Hall as [|? ? _ Hrest]; subst.
        destruct (IH (omap (kept_region step) rest)) as [_ Hfrom].
        specialize (Hfrom (conj Hrest eq_refl)). discriminate.
    + rewrite IH. split.
      * intros [Hall ->]. split; [|reflexivity].
        constructor; [rewrite Hs; reflexivity | exact Hall].
      * intros [Hall ->]. inversion Hall; subst. auto.
    + split; [discriminate|].
      intros [Hall _]. inversion Hall as [|? ? Hl _]; subst.
      rewrite Hs in Hl. discriminate.
Qed.

Lemma collect_regions_stops (step : string -> result (option (Z * Z)))
    (before after : list string) (line : string) (e : exn) :
  all_lines_pass step before ->
  step line = Raise e ->
  collect_regions step (before ++ line :: after)%list = Raise e.
Proof.
  unfold all_lines_pass. induction 1 as [|l before Hl _ IH]; intros Hs.
  - cbn. rewrite Hs. reflexivity.
  - cbn. destruct (step l) as [[r|]|e']; try discriminate.
    + rewrite (IH Hs). reflexivity.
    + exact (IH Hs).
Qed.

Lemma collect_regions_ext (step1 step2 : string -> result (option (Z * Z)))
    (lines : list string) :
  Forall (fun line => step1 line = step2 line) lines ->
  collect_regions step1 lines = collect_regions step2 lines.
Proof.
  induction 1 as [|l rest Hl _ IH]; [reflexivity|].
  cbn. rewrite Hl, IH. reflexivity.
Qed.

Section OverAnyOS.
Context {W : Type} `{OS W} `{Patterns}.

(** X11: on both backends, what [list_mapped_regions] returns is, in the
    order of the maps file, the address range of every line for which the
    loop body reaches [append], one entry for each such line; and it
    returns only when the body raised on no line. *)
Theorem X11_regions_in_table_order :
  (forall cls self writeable_only include_paths (w w' : W) regions,
      Linux.list_mapped_regions cls self writeable_only include_paths w
        = (Ok regions, w') ->
      exists lines,
        maps_read (maps_file (Linux.pid self)) w lines /\
        all_lines_pass
          (Linux.region_of_line cls writeable_only include_paths) lines /\
        regions =
          omap (kept_region
                  (Linux.region_of_line cls writeable_only include_paths))
               lines) /\
  (forall self writeable_only include_paths (w w' : W) regions,
      LinuxVm.list_mapped_regions self writeable_only include_paths w
        = (Ok regions, w') ->
      exists lines,
        maps_read (maps_file (LinuxVm.pid self)) w lines /\
        all_lines_pass
          (LinuxVm.region_of_line writeable_only include_paths) lines /\
        regions =
          omap (kept_region
                  (LinuxVm.region_of_line writeable_only include_paths))
               lines).
Proof.
  split.
  - intros cls self wo inc w w' regions Hrun.
    unfold Linux.list_mapped_regions in Hrun.
    destruct (scanned_file _ _ _ _ _ Hrun) as (lines & Hread & Hc).
    exists lines. split; [exact Hread|].
    apply collect_regions_spec. exact Hc.
  - intros self wo inc w w' regions Hrun.
    unfold LinuxVm.list_mapped_regions in Hrun.
    destruct (scanned_file _ _ _ _ _ Hrun) as (lines & Hread & Hc).
    exists lines. split; [exact Hread|].
    apply collect_regions_spec. exact Hc.
Qed.

Lemma scan_stops (path : string)
    (step : string -> result (option (Z * Z)))
    (f : file) (w w1 w2 w3 : W) (before after : list string)
    (line : string) (stopped : option exn) (e : exn) :
  io_open path "r" w = (Ok f, w1) ->
  io_lines f w1 = (((before ++ line :: after)%list, stopped), w2) ->
  io_close f w2 = (Ok tt, w3) ->
  all_lines_pass step before ->
  step line = Raise e ->
  e <> Hangs ->
  with_open path "r" (scan_maps step) w = (Raise e, w3).
Proof.
  intros Hopen Hlines Hclose Hbefore Hline He.
  eapply with_open_ok with (w2 := w2);
    [exact Hopen | | congruence | exact Hclose].
  unfold scan_maps. rewrite Hlines.
  rewrite (collect_regions_stops step before after line e Hbefore Hline).
  reflexivity.
Qed.

(** X12: a line on which the loop body raises is fatal for the call, not
    skipped: when the body passes the lines before it, and the file can be
    opened and closed, [list_mapped_regions] raises that line's exception
    whatever the lines after it are, on both backends. *)
Theorem X12_bad_line_is_fatal (f : file) (w w1 w2 w3 : W)
    (before after : list string) (line : string)
    (stopped : option exn) (e : exn) :
  io_lines f w1 = (((before ++ line :: after)%list, stopped), w2) ->
  io_close f w2 = (Ok tt, w3) ->
  e <> Hangs ->
  (forall cls self writeable_only include_paths,
      io_open (maps_file (Linux.pid self)) "r" w = (Ok f, w1) ->
      all_lines_pass
        (Linux.region_of_line cls writeable_only include_paths) before ->
      Linux.region_of_line cls writeable_only include_paths line
        = Raise e ->
      Linux.list_mapped_regions cls self writeable_only include_paths w
        = (Raise e, w3)) /\
  (forall self writeable_only include_paths,
      io_open (maps_file (LinuxVm.pid self)) "r" w = (Ok f, w1) ->
      all_lines_pass
        (LinuxVm.region_of_line writeable_only include_paths) before ->
      LinuxVm.region_of_line writeable_only include_paths line
        = Raise e ->
      LinuxVm.list_mapped_regions self writeable_only include_paths w
        = (Raise e, w3)).
Proof.
  intros Hlines Hclose He. split.
  - intros cls self wo inc Hopen Hbefore Hline.
    unfold Linux.list_mapped_regions.
    eapply scan_stops; eauto.
  - intros self wo inc Hopen Hbefore Hline.
    unfold LinuxVm.list_mapped_regions.
    eapply scan_stops; eauto.
Qed.

End OverAnyOS.

(** The second line of the maps file has the range [00g01000-00002000]:
    [int('00g01000', 16)] raises [ValueError], and so does the call. *)
Lemma X12_bad_line_is_fatal_witness :
  exists w3,
    LinuxVm.list_mapped_regions {| LinuxVm.pid := Some 4242 |} true []
      MoreExamples.w_broken = (Raise ValueError, w3).
Proof.
  pose (w1 := snd (RefOS.open "/proc/4242/maps" "r" MoreExamples.w_broken)).
  pose (w3 := snd (RefOS.close 3%nat w1)).
  assert (Hlines :
    io_lines 3%nat w1 =
      ((([nth 0 MoreExamples.broken_maps ""]
         ++ nth 1 MoreExamples.broken_maps ""
         :: [nth 2 MoreExamples.broken_maps ""])%list, None), w1))
    by (vm_compute; reflexivity).
  assert (Hclose : io_close 3%nat w1 = (Ok tt, w3))
    by (vm_compute; reflexivity).
  assert (He : ValueError <> Hangs) by discriminate.
  exists w3.
  apply (proj2 (@X12_bad_line_is_fatal RefOS.world RefOS.ref_os
                  RefPatterns.ref_patterns 3%nat MoreExamples.w_broken
                  w1 w1 w3 _ _ _ None ValueError Hlines Hclose He)
           {| LinuxVm.pid := Some 4242 |} true []).
  - vm_compute. reflexivity.
  - repeat constructor.
  - vm_compute. reflexivity.
Defined.

Lemma X11_regions_in_table_order_witness :
  exists lines,
    maps_read (maps_file (Some 4242)) Examples.w_plain lines /\
    all_lines_pass (LinuxVm.region_of_line false []) lines /\
    [(4194304, 4198400); (4096, 8192); (139637976727552, 139637976731648)]
    = omap (kept_region (LinuxVm.region_of_line false [])) lines.
Proof.
  eapply (proj2 (@X11_regions_in_table_order RefOS.world RefOS.ref_os
                   RefPatterns.ref_patterns)
            {| LinuxVm.pid := Some 4242 |} false [] Examples.w_plain).
  vm_compute. reflexivity.
Defined.

End MoreRegions.

Section MoreLines.

Lemma any_r_stops {A} (f : A -> result bool) (before after : list A)
    (x : A) (e : exn) :
  Forall (fun y => f y = Ok false) before ->
  f x = Raise e ->
  any_r f (before ++ x :: after)%list = Raise e.
Proof.
  induction 1 as [|y before Hy _ IH]; intros Hx; cbn.
  - rewrite Hx. reflexivity.
  - rewrite Hy. exact (IH Hx).
Qed.

(** X13: the path that linux.py tests against the patterns is the fields
    of the line from the sixth on, joined by single spaces: the empty
    string for a line of five fields, and a path with blanks put together
    again.  A line of fewer than five fields has no such item: once a
    pattern of either list has to be tested against it, the loop body
    raises [IndexError]. *)
Theorem X13_path_field `{Patterns} (line : string) :
  ((5 <= length (split_ws line))%nat ->
   Linux.item5 (Linux.fields line)
     = Ok (join " " (skipn 5 (split_ws line)))) /\
  ((length (split_ws line) < 5)%nat ->
   Linux.item5 (Linux.fields line) = Raise IndexError /\
   forall cls writeable_only include_paths,
     not_excluded line ->
     include_paths <> [] \/ Linux.blacklist cls <> [] ->
     Linux.region_of_line cls writeable_only include_paths line
       = Raise IndexError).
Proof.
  unfold Linux.fields.
  destruct (split_ws line) as [|a [|b [|c [|d [|e [|f [|g l]]]]]]] eqn:Hsplit;
    cbn [length]; split; intros Hlen; try lia; try reflexivity.
  all: split; [reflexivity|].
  all: intros cls wo inc [Hg Hp] Hfilter;
    unfold Linux.region_of_line, Linux.fields;
    rewrite Hg, Hp, Hsplit;
    destruct inc as [|x xs];
    [ destruct Hfilter as [Hi|Hb]; [contradiction|];
      destruct (Linux.blacklist cls) as [|y ys]; [contradiction|];
      reflexivity
    | reflexivity ].
Qed.

Lemma X13_path_field_witness :
  Linux.item5 (Linux.fields (nth 2 Examples.target_maps ""))
    = Ok "/opt/my app/lib.so".
Proof.
  rewrite (proj1 (@X13_path_field RefPatterns.ref_patterns
                    (nth 2 Examples.target_maps ""))).
  - reflexivity.
  - vm_compute. lia.
Defined.

Lemma unpack2_fields (line : string) :
  length (split_ws line) <> 1%nat ->
  unpack2 (Linux.fields line) = unpack2 (split_ws line).
Proof.
  unfold Linux.fields.
  destruct (split_ws line) as [|a [|b [|c [|d [|e [|f [|g l]]]]]]];
    cbn [length]; intros Hlen; try reflexivity. lia.
Qed.

Lemma lines_agree `{Patterns} (writeable_only : bool)
    (include_paths : list string) (line : string) :
  length (split_ws line) <> 1%nat ->
  Linux.region_of_line Linux.class_body writeable_only [] line
    = LinuxVm.region_of_line writeable_only include_paths line.
Proof.
  intros Hlen. unfold Linux.region_of_line, LinuxVm.region_of_line.
  destruct (str_in "/dev/dri/" line); [reflexivity|].
  destruct (str_in "Proton" line); [reflexivity|].
  cbn [Linux.blacklist Linux.class_body rbind negb].
  rewrite (unpack2_fields line Hlen). reflexivity.
Qed.

(** X14: with no inclusion pattern and the blacklist of the class body,
    the two backends agree: when no line the maps file delivers consists
    of exactly one field, [list_mapped_regions] of linux.py and of
    linux_vm.py have the same outcome (the same regions or the same
    exception) and leave the same world.  On a line of exactly one field
    they differ: linux.py goes on to the next line, linux_vm.py raises
    [ValueError]. *)
Theorem X14_backends_agree_without_filters {W} `{OS W} `{Patterns} :
  (forall (self : Linux.Process) (self_vm : LinuxVm.Process)
          (writeable_only : bool) (include_paths : list string)
          (f : file) (w w1 w2 : W) (lines : list string)
          (stopped : option exn),
      Linux.pid self = LinuxVm.pid self_vm ->
      io_open (maps_file (Linux.pid self)) "r" w = (Ok f, w1) ->
      io_lines f w1 = ((lines, stopped), w2) ->
      Forall (fun line => length (split_ws line) <> 1%nat) lines ->
      Linux.list_mapped_regions Linux.class_body self writeable_only [] w
      = LinuxVm.list_mapped_regions self_vm writeable_only include_paths
          w) /\
  (forall (writeable_only : bool) (include_paths : list string)
          (line : string),
      not_excluded line ->
      length (split_ws line) = 1%nat ->
      Linux.region_of_line Linux.class_body writeable_only [] line
        = Ok None /\
      LinuxVm.region_of_line writeable_only include_paths line
        = Raise ValueError).
Proof.
  split.
  - intros self self_vm wo inc f w w1 w2 lines stopped Hpid Hopen Hlines
      Hall.
    unfold Linux.list_mapped_regions, LinuxVm.list_mapped_regions.
    rewrite <- Hpid. fold (maps_file (Linux.pid self)).
    unfold with_open, bind, try_finally, scan_maps.
    rewrite Hopen, Hlines.
    rewrite (collect_regions_ext
               (Linux.region_of_line Linux.class_body wo [])
               (LinuxVm.region_of_line wo inc) lines).
    + reflexivity.
    + eapply Forall_impl; [exact Hall|].
      intros line Hlen. apply lines_agree. exact Hlen.
  - intros wo inc line [Hg Hp] Hlen.
    unfold Linux.region_of_line, LinuxVm.region_of_line, Linux.fields.
    rewrite Hg, Hp.
    destruct (split_ws line) as [|a [|b l]]; try discriminate.
    split; reflexivity.
Qed.

(** On the example target both backends return the same three regions. *)
Lemma X14_backends_agree_without_filters_witness :
  Linux.list_mapped_regions Linux.class_body {| Linux.pid := Some 4242 |}
    false [] Examples.w_plain
  = LinuxVm.list_mapped_regions {| LinuxVm.pid := Some 4242 |} false
      ["/lib"] Examples.w_plain.
Proof.
  pose (w1 := snd (RefOS.open "/proc/4242/maps" "r" Examples.w_plain)).
  apply (proj1 (@X14_backends_agree_without_filters RefOS.world
                  RefOS.ref_os RefPatterns.ref_patterns)
           {| Linux.pid := Some 4242 |} {| LinuxVm.pid := Some 4242 |}
           false ["/lib"] 3%nat Examples.w_plain w1 w1
           Examples.target_maps None).
  - reflexivity.
  - vm_compute. reflexivity.
  - vm_compute. reflexivity.
  - repeat constructor; vm_compute; discriminate.
Defined.

(** X15: an inclusion pattern that [re.match] refuses is fatal for the
    call as soon as it is tried: when the patterns before it do not match
    the path of a line as regular expressions, the loop body raises the
    error of that pattern.  The escaped forms, which are tried only after
    every pattern failed as a regular expression, are never reached. *)
Theorem X15_bad_pattern_is_raised `{Patterns} (cls : Linux.ProcessClass)
    (writeable_only : bool) (before after : list string) (x : string)
    (line path : string) (e : exn) :
  not_excluded line ->
  Linux.item5 (Linux.fields line) = Ok path ->
  Forall (fun y => re_match y path = Ok false) before ->
  re_match x path = Raise e ->
  Linux.region_of_line cls writeable_only (before ++ x :: after)%list line
    = Raise e.
Proof.
  intros [Hg Hp] Hpath Hbefore Hx.
  unfold Linux.region_of_line. rewrite Hg, Hp. cbv zeta.
  rewrite (any_r_stops
             (fun y => rbind (Linux.item5 (Linux.fields line)) (re_match y))
             before after x e).
  - destruct (before ++ x :: after)%list eqn:Hl; [|reflexivity].
    destruct before; discriminate.
  - eapply Forall_impl; [exact Hbefore|].
    intros y Hy. cbn beta. rewrite Hpath. exact Hy.
  - rewrite Hpath. exact Hx.
Qed.

End MoreLines.

(** The name of a C++ library, passed as it is: ['+'] twice is not a
    regular expression, though its escaped form would match the path. *)
Lemma X15_bad_pattern_is_raised_witness :
  @Linux.region_of_line RefPatterns.ref_patterns Linux.class_body false
    ["/usr/lib/libstdc++"]
    "7f0000000000-7f0000001000 r-xp 00000000 08:01 9 /usr/lib/libstdc++.so.6"
  = Raise ReError /\
  RefPatterns.re_match (re_escape "/usr/lib/libstdc++")
    "/usr/lib/libstdc++.so.6" = Ok true.
Proof.
  split; [|reflexivity].
  apply (@X15_bad_pattern_is_raised RefPatterns.ref_patterns
           Linux.class_body false [] [] "/usr/lib/libstdc++" _
           "/usr/lib/libstdc++.so.6" ReError).
  - split; reflexivity.
  - reflexivity.
  - constructor.
  - reflexivity.
Defined.
